(** * EvaP evaluation models: course lifecycle, quorum, archival, recipients

    A shallow embedding of [evap/evaluation/models.py].  Django model
    instances become records, related managers become the lists of rows they
    select, Python exceptions become the [Raise] branch of [outcome], and a
    method that mutates [self] becomes a function returning the outcome
    together with the instance as it is left behind. *)

From Stdlib Require Import ZArith String List Bool Lia PrimFloat Uint63.
From stdpp Require Import base option list gmap strings.

Open Scope Z_scope.

(** ** Exceptions and results *)

(** The exception classes that the modelled methods can raise. *)
Inductive exn : Set :=
  | TransitionNotAllowed (message : string)
                              (* django_fsm.TransitionNotAllowed *)
  | NotArchiveable            (* models.NotArchiveable *)
  | AssertionError            (* a failed [assert] *)
  | ZeroDivisionError         (* float division by zero *)
  | DoesNotExist              (* QuerySet.get found no row *)
  | MultipleObjectsReturned   (* QuerySet.get found several rows *)
  | AttributeError.           (* attribute access on None *)

Inductive outcome (A : Type) : Type :=
  | Return (a : A)
  | Raise (e : exn).
Arguments Return {A} a.
Arguments Raise {A} e.

Definition bind {A B : Type} (m : outcome A) (k : A -> outcome B) : outcome B :=
  match m with
  | Return a => k a
  | Raise e => Raise e
  end.

Notation "'do' x <- m ; k" := (bind m (fun x => k))
  (at level 10, x name, m at level 99, k at level 200).

(** [all(f(x) for x in l)] where [f] may raise: the generator is consumed
    lazily and [all] stops at the first falsy element. *)
Fixpoint py_all {A : Type} (f : A -> outcome bool) (l : list A) : outcome bool :=
  match l with
  | [] => Return true
  | x :: xs => do b <- f x; if b then py_all f xs else Return false
  end.

(** [QuerySet.get]: exactly one row, or an exception. *)
Definition get {A : Type} (rows : list A) : outcome A :=
  match rows with
  | [] => Raise DoesNotExist
  | [x] => Return x
  | _ :: _ :: _ => Raise MultipleObjectsReturned
  end.

(** [QuerySet.exists]. *)
Definition exists_ {A : Type} (rows : list A) : bool :=
  match rows with
  | [] => false
  | _ :: _ => true
  end.

(** [float(n)] for a Python int, rounded to nearest as Python does. The
    conversion goes through a 63-bit machine integer, so it is the Python
    one for [|n| < 2^63], which covers what an IntegerField or a row count
    can hold. *)
Definition float_of_int (n : Z) : float :=
  if n <? 0 then PrimFloat.opp (PrimFloat.of_uint63 (Uint63.of_Z (- n)))
  else PrimFloat.of_uint63 (Uint63.of_Z n).

(** [x / n] for a float [x] and an int [n]. *)
Definition float_div_int (x : float) (n : Z) : outcome float :=
  if n =? 0 then Raise ZeroDivisionError
  else Return (PrimFloat.div x (float_of_int n)).

(** ** Settings and the user tables *)

(** [django.conf.settings], the two constants the models read. *)
Record Settings : Type := {
  MIN_ANSWER_COUNT : Z;
  MIN_ANSWER_PERCENTAGE : float;
}.

(** Users are identified by primary key: model instances compare and hash
    by [pk]. *)
Definition user : Type := Z.

(** The user-side tables: the [UserProfile] columns that are read, the
    names of the groups of a user, and the two many-to-many join tables
    with rows [(from_userprofile, to_userprofile)]. *)
Record Database : Type := {
  email_column : user -> string;       (* EmailNullField: NULL reads as '' *)
  groups_of : user -> list string;
  delegates_table : list (user * user);
  cc_users_table : list (user * user);
}.

Module UserProfile.

Definition email (db : Database) (u : user) : string := email_column db u.

(** [u.delegates.all()] *)
Definition delegates (db : Database) (u : user) : list user :=
  map snd (List.filter (fun row => fst row =? u) (delegates_table db)).

(** [u.represented_users.all()], the reverse side of [delegates]. *)
Definition represented_users (db : Database) (u : user) : list user :=
  map fst (List.filter (fun row => snd row =? u) (delegates_table db)).

(** [u.cc_users.all()] *)
Definition cc_users (db : Database) (u : user) : list user :=
  map snd (List.filter (fun row => fst row =? u) (cc_users_table db)).

Definition is_staff (db : Database) (u : user) : bool :=
  exists_ (List.filter (String.eqb "Staff") (groups_of db u)).

End UserProfile.

(** [u in queryset] / [contributor__in=queryset] on users. *)
Definition user_in (u : user) (l : list user) : bool := existsb (Z.eqb u) l.

(** [x is None] *)
Definition is_None {A : Type} (x : option A) : bool :=
  match x with
  | None => true
  | Some _ => false
  end.

(** Truthiness of a Python string. *)
Definition str_truthy (s : string) : bool := negb (String.eqb s "").

(** ** TextAnswer *)

Module TextAnswer.

Record t : Type := {
  reviewed_answer : option string;   (* null=True *)
  original_answer : string;
  checked : bool;
  hidden : bool;
}.

(** [self.reviewed_answer or self.original_answer] *)
Definition answer (a : t) : string :=
  match reviewed_answer a with
  | Some r => if str_truthy r then r else original_answer a
  | None => original_answer a
  end.

End TextAnswer.

(** ** Contribution *)

Module Contribution.

(** A row of the contribution table, with the text answers that point at
    it ([TextAnswer.contribution]). The [course] foreign key is the
    course record that holds the row. *)
Record t : Type := {
  contributor : option user;
  responsible : bool;
  can_edit : bool;
  textanswer_set : list TextAnswer.t;
}.

Definition is_general (c : t) : bool :=
  match contributor c with
  | None => true
  | Some _ => false
  end.

(** [contributions.create(contributor=None)]: the field defaults. *)
Definition create_general : t :=
  {| contributor := None; responsible := false; can_edit := false;
     textanswer_set := [] |}.

End Contribution.

(** ** Course *)

(** The values of [Course.state]. The field is an [FSMField] with
    [protected=True]: it starts as ['new'] and is only ever assigned a
    transition target. *)
Inductive State : Set :=
  | new | prepared | lecturerApproved | approved
  | inEvaluation | evaluated | reviewed | published.

Definition State_eqb (a b : State) : bool :=
  match a, b with
  | new, new | prepared, prepared | lecturerApproved, lecturerApproved
  | approved, approved | inEvaluation, inEvaluation | evaluated, evaluated
  | reviewed, reviewed | published, published => true
  | _, _ => false
  end.

(** The string an [FSMField] holds for a state, as the transitions and
    the state tests of [models.py] write it. *)
Definition state_name (s : State) : string :=
  match s with
  | new => "new"
  | prepared => "prepared"
  | lecturerApproved => "lecturerApproved"
  | approved => "approved"
  | inEvaluation => "inEvaluation"
  | evaluated => "evaluated"
  | reviewed => "reviewed"
  | published => "published"
  end.

(** The two messages with which [django_fsm] raises
    [TransitionNotAllowed]: the current state is not a source of the
    method, or a condition of the method is not met. *)
Definition cannot_switch (current_state : State) (method_name : string) : string :=
  ("Can't switch from state '" ++ state_name current_state
   ++ "' using method '" ++ method_name ++ "'")%string.

Definition conditions_not_met (method_name : string) : string :=
  ("Transition conditions have not been met for method '"
   ++ method_name ++ "'")%string.

(** [s in [...]] on states. *)
Definition state_in (s : State) (l : list State) : bool := existsb (State_eqb s) l.

Module Course.

(** The columns and relations of a course that the modelled methods read
    or assign. [last_modified_time] is a point in time as a number; it has
    [auto_now=True], so every [save] overwrites it. Names, kind, degree,
    the vote dates and [last_modified_user] are carried along unchanged by
    every method and are left out. *)
Record t : Type := {
  state : State;
  participants : list user;
  _participant_count : option Z;
  voters : list user;
  _voter_count : option Z;
  last_modified_time : Z;
  contributions : list Contribution.t;
}.

Definition set_state (s : State) (c : t) : t :=
  {| state := s; participants := participants c;
     _participant_count := _participant_count c; voters := voters c;
     _voter_count := _voter_count c;
     last_modified_time := last_modified_time c;
     contributions := contributions c |}.

Definition set_counts (p v : option Z) (c : t) : t :=
  {| state := state c; participants := participants c;
     _participant_count := p; voters := voters c;
     _voter_count := v;
     last_modified_time := last_modified_time c;
     contributions := contributions c |}.

Definition set_contributions (cs : list Contribution.t) (c : t) : t :=
  {| state := state c; participants := participants c;
     _participant_count := _participant_count c; voters := voters c;
     _voter_count := _voter_count c;
     last_modified_time := last_modified_time c;
     contributions := cs |}.

Definition set_last_modified_time (time : Z) (c : t) : t :=
  {| state := state c; participants := participants c;
     _participant_count := _participant_count c; voters := voters c;
     _voter_count := _voter_count c;
     last_modified_time := time;
     contributions := contributions c |}.

(** A method on a course: what it returns or raises, and the course as
    the call leaves it. *)
Definition method (A : Type) : Type := t -> outcome A * t.

(** [QuerySet.count] *)
Definition count {A : Type} (rows : list A) : Z := Z.of_nat (length rows).

Definition general_contribution (c : t) : outcome (option Contribution.t) :=
  match get (List.filter Contribution.is_general (contributions c)) with
  | Return g => Return (Some g)
  | Raise DoesNotExist => Return None
  | Raise e => Raise e
  end.

(** [save] at the time [now]: [super().save()] stamps
    [last_modified_time] and writes the row, then a general contribution is
    created when there is none. The stamp is in place also when the lookup
    of the general contribution raises. *)
Definition save (now : Z) : method unit := fun c =>
  let c := set_last_modified_time now c in
  match general_contribution c with
  | Raise e => (Raise e, c)
  | Return None =>
      (Return tt,
       set_contributions (contributions c ++ [Contribution.create_general]) c)
  | Return (Some _) => (Return tt, c)
  end.

(** [TextAnswer.objects.filter(contribution__in=self.contributions.all())] *)
Definition textanswer_set (c : t) : list TextAnswer.t :=
  concat (map Contribution.textanswer_set (contributions c)).

(** the same with [checked=False] *)
Definition open_textanswer_set (c : t) : list TextAnswer.t :=
  List.filter (fun a => negb (TextAnswer.checked a)) (textanswer_set c).

Definition is_fully_checked (c : t) : bool :=
  negb (exists_ (open_textanswer_set c)).

Definition num_participants (c : t) : Z :=
  match _participant_count c with
  | Some n => n
  | None => count (participants c)
  end.

Definition num_voters (c : t) : Z :=
  match _voter_count c with
  | Some n => n
  | None => count (voters c)
  end.

(** [num_voters >= MIN_ANSWER_COUNT and
     float(num_voters) / num_participants >= MIN_ANSWER_PERCENTAGE] *)
Definition can_publish_grades (cfg : Settings) (c : t) : outcome bool :=
  if MIN_ANSWER_COUNT cfg <=? num_voters c then
    do ratio <- float_div_int (float_of_int (num_voters c)) (num_participants c);
    Return (PrimFloat.leb (MIN_ANSWER_PERCENTAGE cfg) ratio)
  else Return false.

Definition is_user_contributor (c : t) (u : user) : bool :=
  exists_ (List.filter
             (fun ct => match Contribution.contributor ct with
                        | Some v => v =? u
                        | None => false
                        end)
             (contributions c)).

Definition is_user_contributor_or_delegate (db : Database) (c : t) (u : user) : bool :=
  if is_user_contributor c u then true
  else
    let represented_users := UserProfile.represented_users db u in
    if exists_ (List.filter
                  (fun ct => match Contribution.contributor ct with
                             | Some v => user_in v represented_users
                             | None => false
                             end)
                  (contributions c))
    then true
    else false.

Definition can_user_see_results (cfg : Settings) (db : Database) (c : t) (u : user)
  : outcome bool :=
  if UserProfile.is_staff db u then Return true
  else if State_eqb (state c) published then
    do quorum <- can_publish_grades cfg c;
    if quorum then Return true
    else Return (is_user_contributor_or_delegate db c u)
  else Return false.

(** [participants.exclude(pk__in=voters.all())] *)
Definition due_participants (c : t) : list user :=
  List.filter (fun u => negb (user_in u (voters c))) (participants c).

(** [contributions.get(responsible=True).contributor] *)
Definition responsible_contributor (c : t) : outcome (option user) :=
  do ct <- get (List.filter Contribution.responsible (contributions c));
  Return (Contribution.contributor ct).

Definition is_archived (c : t) : outcome bool :=
  if Bool.eqb (is_None (_participant_count c)) (is_None (_voter_count c))
  then Return (negb (is_None (_participant_count c)))
  else Raise AssertionError.

(** [not self.is_archived and self.state in ["new", "published"]] *)
Definition is_archiveable (c : t) : outcome bool :=
  do archived <- is_archived c;
  if negb archived then Return (state_in (state c) [new; published])
  else Return false.

(** [_archive] at the time [now], the time of its [save]. *)
Definition _archive (now : Z) : method unit := fun c =>
  match is_archiveable c with
  | Raise e => (Raise e, c)
  | Return false => (Raise NotArchiveable, c)
  | Return true =>
      save now (set_counts (Some (count (participants c)))
                           (Some (count (voters c))) c)
  end.

(** The [django_fsm] decorator
    [@transition(field=state, source=..., target=..., conditions=...)]
    around the method [method_name], whose body is [pass]: the call raises
    [TransitionNotAllowed] when the current state is not one of the
    sources, and when some condition returns false, each with its own
    message; otherwise the body runs and the field is set to the target.
    The instance is not saved. *)
Definition transition (method_name : string) (source : list State)
    (target : State) (conditions : list (t -> bool)) : method unit := fun c =>
  if negb (state_in (state c) source) then
    (Raise (TransitionNotAllowed (cannot_switch (state c) method_name)), c)
  else if negb (forallb (fun cond => cond c) conditions) then
    (Raise (TransitionNotAllowed (conditions_not_met method_name)), c)
  else (Return tt, set_state target c).

Definition ready_for_contributors : method unit :=
  transition "ready_for_contributors" [new; lecturerApproved] prepared [].

Definition contributor_approve : method unit :=
  transition "contributor_approve" [prepared] lecturerApproved [].

Definition staff_approve : method unit :=
  transition "staff_approve" [new; prepared; lecturerApproved] approved [].

Definition revert_to_new : method unit :=
  transition "revert_to_new" [prepared] new [].

Definition evaluation_begin : method unit :=
  transition "evaluation_begin" [approved] inEvaluation [].

Definition evaluation_end : method unit :=
  transition "evaluation_end" [inEvaluation] evaluated [].

Definition review_finished : method unit :=
  transition "review_finished" [evaluated] reviewed [is_fully_checked].

Definition publish : method unit :=
  transition "publish" [reviewed] published [].

Definition revoke : method unit :=
  transition "revoke" [published] reviewed [].

End Course.

(** ** Semester *)

Module Semester.

(** A semester with the courses that point at it, in queryset order. *)
Record t : Type := {
  course_set : list Course.t;
}.

Definition is_archiveable (s : t) : outcome bool :=
  py_all Course.is_archiveable (course_set s).

Definition is_archived (s : t) : outcome bool :=
  if Course.count (course_set s) =? 0 then Return false
  else
    match course_set s with
    | [] => Raise AttributeError      (* [first()] is None *)
    | first :: _ =>
        do first_course_is_archived <- Course.is_archived first;
        do same <- py_all (fun course =>
                             do a <- Course.is_archived course;
                             Return (Bool.eqb a first_course_is_archived))
                          (course_set s);
        if same then Return first_course_is_archived
        else Raise AssertionError
    end.

(** [for course in self.course_set.all(): course._archive()]: the
    courses already handled keep what [_archive] saved when a later one
    raises. [clock i] is the time at which the course at position [i] of
    the queryset is saved; [i] is the position of the head of [courses]. *)
Fixpoint archive_each (clock : nat -> Z) (i : nat) (courses : list Course.t)
  : outcome unit * list Course.t :=
  match courses with
  | [] => (Return tt, [])
  | course :: rest =>
      match Course._archive (clock i) course with
      | (Raise e, course') => (Raise e, course' :: rest)
      | (Return _, course') =>
          let (r, rest') := archive_each clock (S i) rest in (r, course' :: rest')
      end
  end.

Definition archive (clock : nat -> Z) (s : t) : outcome unit * t :=
  match is_archiveable s with
  | Raise e => (Raise e, s)
  | Return false => (Raise NotArchiveable, s)
  | Return true =>
      let (r, courses') := archive_each clock 0 (course_set s) in
      (r, {| course_set := courses' |})
  end.

End Semester.

(** ** EmailTemplate *)

Module EmailTemplate.

(** ["name" in recipient_groups] *)
Definition group_in (name : string) (recipient_groups : list string) : bool :=
  existsb (String.eqb name) recipient_groups.

(** The recipients are user objects; [course.responsible_contributor]
    is [None] when the responsible contribution has no contributor. *)
Definition recipient_list_for_course (course : Course.t)
    (recipient_groups : list string) : outcome (list (option user)) :=
  do recipients1 <-
    (if group_in "responsible" recipient_groups then
       do r <- Course.responsible_contributor course; Return [r]
     else Return []);
  let named :=
    List.filter (fun c => negb (Contribution.is_general c))
                (Course.contributions course) in
  let recipients2 :=
    if group_in "contributors" recipient_groups then
      map Contribution.contributor named
    else if group_in "editors" recipient_groups then
      map Contribution.contributor (List.filter Contribution.can_edit named)
    else [] in
  let recipients3 :=
    if group_in "all_participants" recipient_groups then
      map Some (Course.participants course)
    else if group_in "due_participants" recipient_groups then
      map Some (Course.due_participants course)
    else [] in
  Return (recipients1 ++ recipients2 ++ recipients3).

(** [user_course_map.setdefault(user, []).append(course)] *)
Definition setdefault_append (u : user) (course : Course.t)
    (user_course_map : gmap user (list Course.t)) : gmap user (list Course.t) :=
  <[u := default [] (user_course_map !! u) ++ [course]]> user_course_map.

(** [user.email and user not in responsible.cc_users.all()
     and user not in responsible.delegates.all()] *)
Definition is_addressed (db : Database) (responsible usr : option user)
  : outcome bool :=
  match usr with
  | None => Raise AttributeError
  | Some u =>
      if str_truthy (UserProfile.email db u) then
        match responsible with
        | None => Raise AttributeError
        | Some r =>
            Return (negb (user_in u (UserProfile.cc_users db r))
                    && negb (user_in u (UserProfile.delegates db r)))
        end
      else Return false
  end.

(** The inner loop over the recipients of one course. *)
Fixpoint add_recipients (db : Database) (course : Course.t)
    (responsible : option user) (recipients : list (option user))
    (user_course_map : gmap user (list Course.t))
  : outcome (gmap user (list Course.t)) :=
  match recipients with
  | [] => Return user_course_map
  | usr :: rest =>
      do addressed <- is_addressed db responsible usr;
      add_recipients db course responsible rest
        (match usr with
         | Some u =>
             if addressed then setdefault_append u course user_course_map
             else user_course_map
         | None => user_course_map
         end)
  end.

(** The outer loop over the courses. *)
Fixpoint add_courses (db : Database) (courses : list Course.t)
    (recipient_groups : list string)
    (user_course_map : gmap user (list Course.t))
  : outcome (gmap user (list Course.t)) :=
  match courses with
  | [] => Return user_course_map
  | course :: rest =>
      do responsible <- Course.responsible_contributor course;
      do recipients <- recipient_list_for_course course recipient_groups;
      do user_course_map' <-
        add_recipients db course responsible recipients user_course_map;
      add_courses db rest recipient_groups user_course_map'
  end.

(** [send_to_users_in_courses] up to the hand-over to the mailer: the
    [user_course_map] whose items are each passed to [send_to_user]. An
    exception in the loops leaves no mail sent. *)
Definition send_to_users_in_courses (db : Database) (courses : list Course.t)
    (recipient_groups : list string) : outcome (gmap user (list Course.t)) :=
  add_courses db courses recipient_groups ∅.

End EmailTemplate.

(** ** The operations of the core *)

(** The names of the transition methods of [Course]. *)
Inductive Transition : Set :=
  | T_ready_for_contributors | T_contributor_approve | T_staff_approve
  | T_revert_to_new | T_evaluation_begin | T_evaluation_end
  | T_review_finished | T_publish | T_revoke.

(** Calling the transition method of that name. *)
Definition apply_transition (t : Transition) : Course.method unit :=
  match t with
  | T_ready_for_contributors => Course.ready_for_contributors
  | T_contributor_approve => Course.contributor_approve
  | T_staff_approve => Course.staff_approve
  | T_revert_to_new => Course.revert_to_new
  | T_evaluation_begin => Course.evaluation_begin
  | T_evaluation_end => Course.evaluation_end
  | T_review_finished => Course.review_finished
  | T_publish => Course.publish
  | T_revoke => Course.revoke
  end.

(** The name of the method behind a transition. *)
Definition method_name (t : Transition) : string :=
  match t with
  | T_ready_for_contributors => "ready_for_contributors"
  | T_contributor_approve => "contributor_approve"
  | T_staff_approve => "staff_approve"
  | T_revert_to_new => "revert_to_new"
  | T_evaluation_begin => "evaluation_begin"
  | T_evaluation_end => "evaluation_end"
  | T_review_finished => "review_finished"
  | T_publish => "publish"
  | T_revoke => "revoke"
  end.

(** The methods of [Course] that assign to the instance or to its rows;
    archiving and saving with the time at which they run. *)
Inductive operation : Set :=
  | Op_transition (t : Transition)
  | Op_archive (now : Z)
  | Op_save (now : Z).

Definition run (op : operation) : Course.method unit :=
  match op with
  | Op_transition t => apply_transition t
  | Op_archive now => Course._archive now
  | Op_save now => Course.save now
  end.

(** ** The lifecycle table of the specification *)

Definition spec_From (t : Transition) : list State :=
  match t with
  | T_ready_for_contributors => [new; lecturerApproved]
  | T_contributor_approve => [prepared]
  | T_staff_approve => [new; prepared; lecturerApproved]
  | T_revert_to_new => [prepared]
  | T_evaluation_begin => [approved]
  | T_evaluation_end => [inEvaluation]
  | T_review_finished => [evaluated]
  | T_publish => [reviewed]
  | T_revoke => [published]
  end.

Definition spec_To (t : Transition) : State :=
  match t with
  | T_ready_for_contributors => prepared
  | T_contributor_approve => lecturerApproved
  | T_staff_approve => approved
  | T_revert_to_new => new
  | T_evaluation_begin => inEvaluation
  | T_evaluation_end => evaluated
  | T_review_finished => reviewed
  | T_publish => published
  | T_revoke => reviewed
  end.

(** * Inputs for the examples *)

Definition unchecked_answer : TextAnswer.t :=
  {| TextAnswer.reviewed_answer := None;
     TextAnswer.original_answer := "too fast";
     TextAnswer.checked := false;
     TextAnswer.hidden := false |}.

Definition lecturer (u : user) (answers : list TextAnswer.t) : Contribution.t :=
  {| Contribution.contributor := Some u;
     Contribution.responsible := true;
     Contribution.can_edit := true;
     Contribution.textanswer_set := answers |}.

Definition course_in (s : State) (ps vs : list user)
    (cs : list Contribution.t) : Course.t :=
  {| Course.state := s;
     Course.participants := ps; Course._participant_count := None;
     Course.voters := vs; Course._voter_count := None;
     Course.last_modified_time := 0;
     Course.contributions := cs |}.

(** In state [evaluated], one text answer still unchecked. *)
Definition course_under_review : Course.t :=
  course_in evaluated [1; 2] [1]
            [Contribution.create_general; lecturer 7 [unchecked_answer]].


(** The thresholds of the quorum scenario: one answer, half the course. *)
Definition settings_scenario : Settings :=
  {| MIN_ANSWER_COUNT := 1; MIN_ANSWER_PERCENTAGE := 0.5%float |}.

(** User tables with nobody in a group and no delegate or cc relation;
    every user has an address. *)
Definition db_plain : Database :=
  {| email_column := fun _ => "user@institution.example";
     groups_of := fun _ => [];
     delegates_table := [];
     cc_users_table := [] |}.

(** Published, the only participant has been removed after voting. *)
Definition course_without_participants : Course.t :=
  course_in published [] [1] [Contribution.create_general; lecturer 7 []].

(** Two participants, one of them voted. *)
Definition course_half_voted : Course.t :=
  course_in published [1; 2] [1] [Contribution.create_general; lecturer 7 []].

(** The archival scenario: a semester of two courses, one of them in
    evaluation. *)
Definition semester_in_evaluation : Semester.t :=
  {| Semester.course_set :=
       [course_in published [1; 2] [1] [Contribution.create_general; lecturer 7 []];
        course_in inEvaluation [3; 4] [3] [Contribution.create_general; lecturer 8 []]] |}.

(** A published course that has been archived with 2 participants and 1 voter. *)
Definition archived_course : Course.t :=
  Course.set_counts (Some 2) (Some 1) course_half_voted.

(** A semester without courses. *)
Definition empty_semester : Semester.t := {| Semester.course_set := [] |}.

(** A semester with an archived and a live course. *)
Definition mixed_semester : Semester.t :=
  {| Semester.course_set := [archived_course; course_half_voted] |}.

(** A course object before its first [save]: no row, no contributions. *)
Definition unsaved_course : Course.t := course_in new [] [] [].

(** The notification scenario: user 1 is a due participant of course A
    and a cc user of user 8, the responsible contributor of course B, of
    which user 1 is a due participant as well. *)
Definition db_cc : Database :=
  {| email_column := fun u => if u =? 5 then "" else "user@institution.example";
     groups_of := fun _ => [];
     delegates_table := [];
     cc_users_table := [(8, 1)] |}.

Definition course_A : Course.t :=
  course_in inEvaluation [1; 2; 5] [2] [Contribution.create_general; lecturer 7 []].

Definition course_B : Course.t :=
  course_in inEvaluation [1; 3] [] [Contribution.create_general; lecturer 8 []].

(** * Specification predicates *)

(** [u] is a contributor of [c], or a delegate of one. *)
Definition contributor_or_delegate (db : Database) (c : Course.t) (u : user) : Prop :=
  exists ct, ct ∈ Course.contributions c /\
    (Contribution.contributor ct = Some u \/
     exists v, Contribution.contributor ct = Some v /\ (v, u) ∈ delegates_table db).

(** The data-model invariant behind [Course.is_archived]: the two frozen
    counts are set together. *)
Definition counts_consistent (c : Course.t) : Prop :=
  Course._participant_count c = None <-> Course._voter_count c = None.

(** A frozen count of [c] is still there, with its value, in [c']. *)
Definition frozen_kept (c c' : Course.t) : Prop :=
  (forall p, Course._participant_count c = Some p ->
             Course._participant_count c' = Some p) /\
  (forall v, Course._voter_count c = Some v ->
             Course._voter_count c' = Some v).

(** The contributions of a course that have no contributor. *)
Definition general_contributions (c : Course.t) : list Contribution.t :=
  List.filter Contribution.is_general (Course.contributions c).

(** The courses that exist: what a successful [save] leaves behind, and
    everything the operations of the core make of it, whether they return
    or raise. *)
Inductive reachable : Course.t -> Prop :=
  | reachable_saved (now : Z) (c : Course.t) :
      fst (Course.save now c) = Return tt -> reachable (snd (Course.save now c))
  | reachable_step (op : operation) (c : Course.t) :
      reachable c -> reachable (snd (run op c)).

(** The recipient list of a course for a selection of groups, rule by rule:
    the responsible contributor; every contributor, or else the editors;
    every participant, or else the participants who have not voted. *)
Definition is_recipient (recipient_groups : list string) (c : Course.t) (u : user)
  : Prop :=
  ("responsible"%string ∈ recipient_groups /\
   Course.responsible_contributor c = Return (Some u)) \/
  ("contributors"%string ∈ recipient_groups /\
   exists ct, ct ∈ Course.contributions c /\ Contribution.contributor ct = Some u) \/
  (("contributors"%string ∉ recipient_groups) /\
   "editors"%string ∈ recipient_groups /\
   exists ct, ct ∈ Course.contributions c /\ Contribution.contributor ct = Some u /\
              Contribution.can_edit ct = true) \/
  ("all_participants"%string ∈ recipient_groups /\ u ∈ Course.participants c) \/
  (("all_participants"%string ∉ recipient_groups) /\
   "due_participants"%string ∈ recipient_groups /\
   u ∈ Course.participants c /\ u ∉ Course.voters c).

(** [u] is a cc user or a delegate of the responsible contributor of [c]. *)
Definition already_informed (db : Database) (c : Course.t) (u : user) : Prop :=
  exists r, Course.responsible_contributor c = Return (Some r) /\
            ((r, u) ∈ cc_users_table db \/ (r, u) ∈ delegates_table db).

(** [u] is to be notified about [c]. *)
Definition qualifies (db : Database) (recipient_groups : list string)
    (c : Course.t) (u : user) : Prop :=
  is_recipient recipient_groups c u /\
  UserProfile.email db u <> ""%string /\
  ~ already_informed db c u.

(** [c] is among the courses that [user_course_map] holds for [u]. *)
Definition listed (user_course_map : gmap user (list Course.t))
    (u : user) (c : Course.t) : Prop :=
  exists cs, user_course_map !! u = Some cs /\ c ∈ cs.

(** * Further methods of the models *)

(** ** Student-facing state *)

(** The module-level dict [STUDENT_STATES_NAMES]. *)
Definition STUDENT_STATES_NAMES : gmap string string :=
  list_to_map
    [("new", "upcoming"); ("prepared", "upcoming");
     ("lecturerApproved", "upcoming"); ("approved", "upcoming");
     ("inEvaluation", "inEvaluation"); ("evaluated", "evaluationFinished");
     ("reviewed", "evaluationFinished"); ("published", "published")]%string.

(** [STUDENT_STATES_NAMES[self.state]]; [None] stands for [KeyError]. *)
Definition student_state (c : Course.t) : option string :=
  STUDENT_STATES_NAMES !! state_name (Course.state c).

(** ** Staff permissions and further course queries *)

Module CourseQueries.

(** [not self.is_archived and self.state in [...]] *)
Definition can_staff_edit (c : Course.t) : outcome bool :=
  do archived <- Course.is_archived c;
  if negb archived then
    Return (state_in (Course.state c)
              [new; prepared; lecturerApproved; approved; inEvaluation])
  else Return false.

(** [self.can_staff_edit and not self.num_voters > 0] *)
Definition can_staff_delete (c : Course.t) : outcome bool :=
  do editable <- can_staff_edit c;
  if editable then Return (negb (0 <? Course.num_voters c))
  else Return false.

(** [self.state in ['inEvaluation', 'evaluated']
     and not self.is_fully_checked()] *)
Definition can_staff_review (c : Course.t) : bool :=
  if state_in (Course.state c) [inEvaluation; evaluated]
  then negb (Course.is_fully_checked c)
  else false.

Definition can_staff_approve (c : Course.t) : bool :=
  state_in (Course.state c) [new; prepared; lecturerApproved].

(** The same pseudo relationship as [open_textanswer_set], with
    [checked=True]. *)
Definition checked_textanswer_set (c : Course.t) : list TextAnswer.t :=
  List.filter TextAnswer.checked (Course.textanswer_set c).

Definition is_user_editor (c : Course.t) (u : user) : bool :=
  exists_ (List.filter
             (fun ct => match Contribution.contributor ct with
                        | Some v => v =? u
                        | None => false
                        end && Contribution.can_edit ct)
             (Course.contributions c)).

Definition is_user_editor_or_delegate (db : Database) (c : Course.t) (u : user)
  : bool :=
  if exists_ (List.filter
                (fun ct => Contribution.can_edit ct &&
                           match Contribution.contributor ct with
                           | Some v => v =? u
                           | None => false
                           end)
                (Course.contributions c))
  then true
  else
    let represented_users := UserProfile.represented_users db u in
    if exists_ (List.filter
                  (fun ct => Contribution.can_edit ct &&
                             match Contribution.contributor ct with
                             | Some v => user_in v represented_users
                             | None => false
                             end)
                  (Course.contributions c))
    then true
    else false.

Definition is_user_responsible_or_delegate (db : Database) (c : Course.t)
    (u : user) : bool :=
  if exists_ (List.filter
                (fun ct => Contribution.responsible ct &&
                           match Contribution.contributor ct with
                           | Some v => v =? u
                           | None => false
                           end)
                (Course.contributions c))
  then true
  else
    let represented_users := UserProfile.represented_users db u in
    if exists_ (List.filter
                  (fun ct => Contribution.responsible ct &&
                             match Contribution.contributor ct with
                             | Some v => user_in v represented_users
                             | None => false
                             end)
                  (Course.contributions c))
    then true
    else false.

End CourseQueries.

Module SemesterQueries.

(** [all(course.can_staff_delete for course in self.course_set.all())] *)
Definition can_staff_delete (s : Semester.t) : outcome bool :=
  py_all CourseQueries.can_staff_delete (Semester.course_set s).

End SemesterQueries.

(** ** Contribution.clean and the answer setter *)

Module ContributionClean.

(** [if self.responsible: self.can_edit = True] *)
Definition clean (ct : Contribution.t) : Contribution.t :=
  if Contribution.responsible ct then
    {| Contribution.contributor := Contribution.contributor ct;
       Contribution.responsible := Contribution.responsible ct;
       Contribution.can_edit := true;
       Contribution.textanswer_set := Contribution.textanswer_set ct |}
  else ct.

End ContributionClean.

Module TextAnswerSetter.

(** The setter of the [answer] property:
    [self.original_answer = value; self.reviewed_answer = None] *)
Definition set_answer (value : string) (a : TextAnswer.t) : TextAnswer.t :=
  {| TextAnswer.reviewed_answer := None;
     TextAnswer.original_answer := value;
     TextAnswer.checked := TextAnswer.checked a;
     TextAnswer.hidden := TextAnswer.hidden a |}.

End TextAnswerSetter.

(** ** EmailNullField *)

Module EmailNullField.

(** Truthiness of a value that is a string or [None]. *)
Definition truthy (value : option string) : bool :=
  match value with
  | Some s => str_truthy s
  | None => false
  end.

(** [value or ""] *)
Definition to_python (value : option string) : option string :=
  if truthy value then value else Some ""%string.

(** [value or None] *)
Definition get_prep_value (value : option string) : option string :=
  if truthy value then value else None.

End EmailNullField.

(** ** Names of a user *)

Module UserNames.

(** The name columns of [UserProfile]; all but [username] are nullable. *)
Record t : Type := {
  username : string;
  title : option string;
  first_name : option string;
  last_name : option string;
}.

Definition get_short_name (u : t) : string :=
  match first_name u with
  | Some f => if str_truthy f then f else username u
  | None => username u
  end.

Definition full_name (u : t) : string :=
  match last_name u with
  | Some l =>
      if str_truthy l then
        let name := l in
        let name :=
          match first_name u with
          | Some f => if str_truthy f then (f ++ " " ++ name)%string else name
          | None => name
          end in
        let name :=
          match title u with
          | Some t => if str_truthy t then (t ++ " " ++ name)%string else name
          | None => name
          end in
        name
      else username u
  | None => username u
  end.

End UserNames.

(** ** Sending mail *)

Module Mail.

(** The settings read when a message is built: [MANAGERS] is a list of
    [(name, address)] pairs. *)
Record MailSettings : Type := {
  MANAGERS : list (string * string);
  REPLY_TO_EMAIL : string;
}.

(** The columns of an [EmailTemplate] row. *)
Record Template : Type := {
  name : string;
  subject : string;
  body : string;
}.

(** The dictionaries handed to [render_string]. *)
Inductive context : Type :=
  | Courses_context (usr : user) (courses : option (list Course.t))
  | Reminder_subject_context (usr : user) (due_in_number_of_days : Z)
  | Reminder_body_context (usr : user) (due_in_number_of_days : Z)
      (due_courses : list Course.t).

(** [django.core.mail.EmailMessage] as it is constructed here. *)
Record EmailMessage : Type := {
  msg_subject : string;
  msg_body : string;
  msg_to : list string;
  msg_cc : list string;
  msg_bcc : list string;
  msg_headers : list (string * string);
}.

Section Rendering.

(** [render_string], the Django template engine, is taken as given. *)
Variable render_string : string -> context -> string.
Variable settings : MailSettings.
Variable db : Database.

(** [[a[1] for a in settings.MANAGERS]] *)
Definition manager_addresses : list string := map snd (MANAGERS settings).

(** [set(user.delegates.all() | user.cc_users.all())]; the set is
    iterated in an order Python does not specify, here in the order of
    [elements]. *)
Definition cc_user_set (u : user) : list user :=
  elements (list_to_set (UserProfile.delegates db u ++ UserProfile.cc_users db u)
            : gset user).

(** [[p.email for p in cc_users if p.email]] *)
Definition cc_addresses_of (u : user) : list string :=
  map (UserProfile.email db)
      (List.filter (fun p => str_truthy (UserProfile.email db p)) (cc_user_set u)).

(** [send_to_user]: the messages handed to [mail.send], none or one. *)
Definition send_to_user (template : Template) (u : user)
    (courses : option (list Course.t)) (cc : bool) : list EmailMessage :=
  if negb (str_truthy (UserProfile.email db u)) then []
  else
    let cc_addresses := if cc then cc_addresses_of u else [] in
    [{| msg_subject := render_string (subject template) (Courses_context u courses);
        msg_body := render_string (body template) (Courses_context u courses);
        msg_to := [UserProfile.email db u];
        msg_cc := cc_addresses;
        msg_bcc := manager_addresses;
        msg_headers := [("Reply-To"%string, REPLY_TO_EMAIL settings)] |}].

(** [cls.objects.get(name="Student Reminder")] on the template table. *)
Definition get_reminder_template (templates : list Template) : outcome Template :=
  get (List.filter (fun t => String.eqb (name t) "Student Reminder") templates).

Definition send_reminder_to_user (templates : list Template) (u : user)
    (due_in_number_of_days : Z) (due_courses : list Course.t)
  : outcome (list EmailMessage) :=
  if negb (str_truthy (UserProfile.email db u)) then Return []
  else
    do template <- get_reminder_template templates;
    let subject :=
      render_string (subject template)
        (Reminder_subject_context u due_in_number_of_days) in
    let body :=
      render_string (body template)
        (Reminder_body_context u due_in_number_of_days due_courses) in
    Return [{| msg_subject := subject;
               msg_body := body;
               msg_to := [UserProfile.email db u];
               msg_cc := [];
               msg_bcc := manager_addresses;
               msg_headers := [("Reply-To"%string, REPLY_TO_EMAIL settings)] |}].

(** [send_to_users_in_courses] in full: the map is built, then every
    item is passed to [send_to_user]; the items are visited in the order of
    [map_to_list]. *)
Definition send_to_users_in_courses (template : Template)
    (courses : list Course.t) (recipient_groups : list string)
  : outcome (list EmailMessage) :=
  do user_course_map <-
    EmailTemplate.send_to_users_in_courses db courses recipient_groups;
  Return (concat (map (fun item : user * list Course.t =>
                         send_to_user template (fst item) (Some (snd item)) true)
                      (map_to_list user_course_map))).

End Rendering.

End Mail.

(** * Inputs and predicates for the further properties *)

(** The place of a state in the course of an evaluation: preparation,
    approved, running, finished, results. *)
Definition phase (s : State) : nat :=
  match s with
  | new | prepared | lecturerApproved => 0
  | approved => 1
  | inEvaluation => 2
  | evaluated => 3
  | reviewed | published => 4
  end%nat.

(** Running operations one after the other, whatever each one answers. *)
Definition run_all (ops : list operation) (c : Course.t) : Course.t :=
  fold_left (fun c op => snd (run op c)) ops c.

(** The way of a course from approval to publication. *)
Definition evaluation_path : list operation :=
  [Op_transition T_staff_approve; Op_transition T_evaluation_begin;
   Op_transition T_evaluation_end; Op_transition T_review_finished;
   Op_transition T_publish].

(** The course with its two counts frozen at the current numbers. *)
Definition freeze (c : Course.t) : Course.t :=
  Course.set_counts (Some (Course.count (Course.participants c)))
                    (Some (Course.count (Course.voters c))) c.

(** What [_archive] at the time [now] makes of a course that has its
    general contribution: the counts are frozen and the row is stamped. *)
Definition archived_at (now : Z) (c : Course.t) : Course.t :=
  Course.set_last_modified_time now (freeze c).

(** A clock that shows 100, 101, 102, ... at the successive saves. *)
Definition clock_from_100 (i : nat) : Z := 100 + Z.of_nat i.

(** The course with other participants and voters. *)
Definition set_people (ps vs : list user) (c : Course.t) : Course.t :=
  {| Course.state := Course.state c;
     Course.participants := ps;
     Course._participant_count := Course._participant_count c;
     Course.voters := vs;
     Course._voter_count := Course._voter_count c;
     Course.last_modified_time := Course.last_modified_time c;
     Course.contributions := Course.contributions c |}.

(** The five group names that [recipient_list_for_course] looks for. *)
Definition known_groups : list string :=
  ["responsible"; "contributors"; "editors"; "all_participants";
   "due_participants"]%string.

(** A semester of two published courses ready for archiving. *)
Definition semester_published : Semester.t :=
  {| Semester.course_set :=
       [course_half_voted;
        course_in published [3; 4] [3] [Contribution.create_general; lecturer 8 []]] |}.

(** A course in state [new] without text answers. *)
Definition fresh_course : Course.t :=
  course_in new [1; 2] [] [Contribution.create_general; lecturer 7 []].

(** A user with a title and both names, and one with a username only. *)
Definition names_full : UserNames.t :=
  {| UserNames.username := "lovelace"; UserNames.title := Some "Dr."%string;
     UserNames.first_name := Some "Ada"%string;
     UserNames.last_name := Some "Lovelace"%string |}.

Definition mail_settings : Mail.MailSettings :=
  {| Mail.MANAGERS := [("Evaluation team", "team@institution.example")]%string;
     Mail.REPLY_TO_EMAIL := "team@institution.example" |}.

Definition notice : Mail.Template :=
  {| Mail.name := "Evaluation Started"; Mail.subject := "Evaluation";
     Mail.body := "Please vote." |}.

(** A stand-in for the template engine: the template text itself. *)
Definition render_plain (text : string) (_ : Mail.context) : string := text.

(** * Properties *)

(** ** Lifecycle *)

Section Lifecycle.

Lemma state_in_elem_of (s : State) (l : list State) :
  state_in s l = true <-> s ∈ l.
Proof.
  unfold state_in. induction l as [|x l IH]; cbn.
  - rewrite elem_of_nil. split; [discriminate | tauto].
  - rewrite elem_of_cons, orb_true_iff, IH.
    assert (State_eqb s x = true <-> s = x) as ->
      by (destruct s, x; cbn; split; congruence).
    tauto.
Qed.

Lemma transition_ok name source target conditions c :
  state_in (Course.state c) source = true ->
  forallb (fun cond => cond c) conditions = true ->
  Course.transition name source target conditions c
  = (Return tt, Course.set_state target c).
Proof. intros Hs Hc. unfold Course.transition. now rewrite Hs, Hc. Qed.




(** What each named transition is, as one call of the decorator. *)
Lemma apply_transition_unfold (t : Transition) :
  apply_transition t
  = Course.transition (method_name t) (spec_From t) (spec_To t)
      (match t with
       | T_review_finished => [Course.is_fully_checked]
       | _ => []
       end).
Proof. now destruct t. Qed.

Lemma guard_of_transition (t : Transition) (c : Course.t) :
  forallb (fun cond => cond c)
    (match t with
     | T_review_finished => [Course.is_fully_checked]
     | _ => []
     end) = true
  <-> (t = T_review_finished -> Course.is_fully_checked c = true).
Proof.
  destruct t; cbn; try (split; [discriminate || congruence | reflexivity]).
  rewrite andb_true_r. split; [auto | intros H; now apply H].
Qed.

End Lifecycle.

(** C1. A transition of the lifecycle table succeeds exactly when the
    state of the course is in the From set of the transition and, for
    [review_finished], all text answers are checked. On success the state
    is the To state of the table; otherwise [TransitionNotAllowed] is raised,
    with the message for an unmet condition when the state is in the From
    set and with the message for a wrong state when it is not, and the
    course is left as it was. *)
Theorem transition_table_sound (c : Course.t) (t : Transition) :
  (fst (apply_transition t c) = Return tt <->
     Course.state c ∈ spec_From t /\
     (t = T_review_finished -> Course.is_fully_checked c = true)) /\
  (fst (apply_transition t c) = Return tt ->
     Course.state (snd (apply_transition t c)) = spec_To t) /\
  (fst (apply_transition t c) <> Return tt ->
     fst (apply_transition t c)
     = Raise (TransitionNotAllowed
                (if state_in (Course.state c) (spec_From t)
                 then conditions_not_met (method_name t)
                 else cannot_switch (Course.state c) (method_name t))) /\
     snd (apply_transition t c) = c).
Proof.
  rewrite apply_transition_unfold, <- state_in_elem_of, <- guard_of_transition.
  unfold Course.transition.
  destruct (state_in (Course.state c) (spec_From t)); cbn [negb];
    [destruct (forallb _ _) |]; cbn; repeat split;
    intuition (try discriminate; try congruence).
Qed.

(** C1 on a course under review: the guard refuses [review_finished]. *)
Lemma transition_table_sound_witness :
  fst (apply_transition T_review_finished course_under_review)
  = Raise (TransitionNotAllowed
             (if state_in (Course.state course_under_review)
                          (spec_From T_review_finished)
              then conditions_not_met (method_name T_review_finished)
              else cannot_switch (Course.state course_under_review)
                                 (method_name T_review_finished))) /\
  snd (apply_transition T_review_finished course_under_review)
  = course_under_review.
Proof.
  apply (transition_table_sound course_under_review T_review_finished).
  vm_compute. discriminate.
Defined.


Lemma exists_filter {A : Type} (f : A -> bool) (l : list A) :
  exists_ (List.filter f l) = true <-> exists x, x ∈ l /\ f x = true.
Proof.
  induction l as [|a l IH]; cbn.
  - split; [discriminate | intros (x & Hx & _); now apply elem_of_nil in Hx].
  - destruct (f a) eqn:Ha; cbn.
    + split; [intros _; exists a; split; [left | assumption] | reflexivity].
    + rewrite IH. split.
      * intros (x & Hx & Hf). exists x. split; [now right | assumption].
      * intros (x & Hx & Hf). apply elem_of_cons in Hx as [-> | Hx];
          [congruence | now exists x].
  Qed.




(** The two failures on the course under review, as a caller sees them:
    [review_finished] is refused for the open review, [publish] for the
    wrong state. *)
Example review_finished_and_publish_messages :
  fst (Course.review_finished course_under_review)
  = Raise (TransitionNotAllowed
             "Transition conditions have not been met for method 'review_finished'") /\
  fst (Course.publish course_under_review)
  = Raise (TransitionNotAllowed
             "Can't switch from state 'evaluated' using method 'publish'").
Proof. split; reflexivity. Qed.

(** ** Text answers *)

(** C10. The effective answer is the reviewed value when one is present
    (not null and not the empty string), and the original value otherwise,
    which includes a reviewed value that is the empty string. *)
Theorem answer_reviewed_or_original (a : TextAnswer.t) :
  (forall r, TextAnswer.reviewed_answer a = Some r -> r <> ""%string ->
             TextAnswer.answer a = r) /\
  (TextAnswer.reviewed_answer a = None \/
   TextAnswer.reviewed_answer a = Some ""%string ->
   TextAnswer.answer a = TextAnswer.original_answer a).
Proof.
  unfold TextAnswer.answer, str_truthy. split.
  - intros r -> Hr. apply String.eqb_neq in Hr. now rewrite Hr.
  - intros [-> | ->]; reflexivity.
Qed.

Lemma answer_reviewed_or_original_witness :
  TextAnswer.answer
    {| TextAnswer.reviewed_answer := Some ""%string;
       TextAnswer.original_answer := "too fast";
       TextAnswer.checked := true; TextAnswer.hidden := false |}
  = "too fast"%string.
Proof.
  apply (answer_reviewed_or_original
           {| TextAnswer.reviewed_answer := Some ""%string;
              TextAnswer.original_answer := "too fast";
              TextAnswer.checked := true; TextAnswer.hidden := false |}).
  right. reflexivity.
Defined.

(** ** Publication quorum *)

Section Quorum.

Variable cfg : Settings.

(** With participants the quorum is a plain conjunction. *)
Lemma can_publish_grades_defined (c : Course.t) :
  Course.num_participants c <> 0 ->
  Course.can_publish_grades cfg c
  = Return ((MIN_ANSWER_COUNT cfg <=? Course.num_voters c)
            && PrimFloat.leb (MIN_ANSWER_PERCENTAGE cfg)
                 (PrimFloat.div (float_of_int (Course.num_voters c))
                                (float_of_int (Course.num_participants c)))).
Proof.
  intros Hp. unfold Course.can_publish_grades, float_div_int.
  apply Z.eqb_neq in Hp. rewrite Hp.
  now destruct (MIN_ANSWER_COUNT cfg <=? Course.num_voters c).
Qed.

(** Without participants the answer count alone decides between [False]
    and the division by zero. *)
Lemma can_publish_grades_no_participants (c : Course.t) :
  Course.num_participants c = 0 ->
  Course.can_publish_grades cfg c
  = if MIN_ANSWER_COUNT cfg <=? Course.num_voters c
    then Raise ZeroDivisionError else Return false.
Proof.
  intros Hp. unfold Course.can_publish_grades, float_div_int.
  rewrite Hp. now destruct (MIN_ANSWER_COUNT cfg <=? Course.num_voters c).
Qed.

Lemma can_publish_grades_raises (c : Course.t) (e : exn) :
  Course.can_publish_grades cfg c = Raise e ->
  e = ZeroDivisionError /\ Course.num_participants c = 0
  /\ MIN_ANSWER_COUNT cfg <= Course.num_voters c.
Proof.
  unfold Course.can_publish_grades, float_div_int.
  destruct (MIN_ANSWER_COUNT cfg <=? Course.num_voters c) eqn:Hv;
    [| discriminate].
  destruct (Course.num_participants c =? 0) eqn:Hp; cbn; [| discriminate].
  intros [= <-]. repeat split; [now apply Z.eqb_eq | now apply Z.leb_le].
Qed.

End Quorum.

(** Two participants, one voter, thresholds 1 and 0.5: the quorum holds. *)
Example quorum_scenario :
  Course.can_publish_grades settings_scenario course_half_voted = Return true.
Proof. vm_compute. reflexivity. Qed.

(** C2 fails on the code. A course without participants whose one voter
    meets MIN_ANSWER_COUNT: the quorum test divides by zero instead of
    answering false. *)
Theorem can_publish_grades_divides_by_zero :
  Course.num_participants course_without_participants = 0 /\
  Course.can_publish_grades settings_scenario course_without_participants
  = Raise ZeroDivisionError.
Proof. split; reflexivity. Qed.

(** ** Visibility of results *)

Section Results.

Variable cfg : Settings.
Variable db : Database.

Lemma user_in_elem_of (u : user) (l : list user) :
  user_in u l = true <-> u ∈ l.
Proof.
  unfold user_in. induction l as [|x l IH]; cbn.
  - rewrite elem_of_nil. split; [discriminate | tauto].
  - rewrite elem_of_cons, orb_true_iff, IH, Z.eqb_eq. tauto.
Qed.

Lemma represented_users_elem_of (u v : user) :
  v ∈ UserProfile.represented_users db u <-> (v, u) ∈ delegates_table db.
Proof.
  unfold UserProfile.represented_users.
  induction (delegates_table db) as [|[a b] l IH]; cbn.
  - now rewrite !elem_of_nil.
  - destruct (b =? u) eqn:Hb; cbn; rewrite ?elem_of_cons, IH.
    + apply Z.eqb_eq in Hb. subst b. split.
      * intros [-> | H]; [now left | now right].
      * intros [[= ->] | H]; [now left | now right].
    + apply Z.eqb_neq in Hb. split; [now right |].
      intros [[= -> ->] | H]; [congruence | assumption].
Qed.

Lemma is_user_contributor_iff (c : Course.t) (u : user) :
  Course.is_user_contributor c u = true
  <-> exists ct, ct ∈ Course.contributions c /\
                 Contribution.contributor ct = Some u.
Proof.
  unfold Course.is_user_contributor. rewrite exists_filter.
  split; intros (ct & Hin & Hct); exists ct; split; try assumption.
  - destruct (Contribution.contributor ct) as [v|]; [| discriminate].
    apply Z.eqb_eq in Hct. now subst v.
  - rewrite Hct. apply Z.eqb_refl.
Qed.

Lemma is_user_contributor_or_delegate_iff (c : Course.t) (u : user) :
  Course.is_user_contributor_or_delegate db c u = true
  <-> contributor_or_delegate db c u.
Proof.
  unfold Course.is_user_contributor_or_delegate, contributor_or_delegate.
  destruct (Course.is_user_contributor c u) eqn:Hdirect.
  - apply is_user_contributor_iff in Hdirect as (ct & Hin & Hct).
    split; [intros _ | reflexivity]. exists ct. split; [assumption | now left].
  - destruct (exists_ (List.filter _ _)) eqn:Hvia.
    + apply exists_filter in Hvia as (ct & Hin & Hct).
      split; [intros _ | reflexivity]. exists ct. split; [assumption | right].
      destruct (Contribution.contributor ct) as [v|]; [| discriminate].
      exists v. split; [reflexivity |].
      now apply represented_users_elem_of, user_in_elem_of.
    + split; [discriminate |]. intros (ct & Hin & Hct). exfalso.
      destruct Hct as [Hct | (v & Hct & Hrow)].
      * apply not_true_iff_false in Hdirect.
        apply Hdirect, is_user_contributor_iff. now exists ct.
      * apply not_true_iff_false in Hvia. apply Hvia, exists_filter.
        exists ct. split; [assumption |]. rewrite Hct.
        now apply user_in_elem_of, represented_users_elem_of.
Qed.

(** Whenever the quorum test returns, the visibility rule is the one of
    the specification. *)
Lemma can_user_see_results_when_quorum_returns (c : Course.t) (u : user)
    (quorum : bool) :
  Course.can_publish_grades cfg c = Return quorum ->
  exists visible,
    Course.can_user_see_results cfg db c u = Return visible /\
    (UserProfile.is_staff db u = true -> visible = true) /\
    (UserProfile.is_staff db u = false -> Course.state c = published ->
     (visible = true <-> quorum = true \/ contributor_or_delegate db c u)) /\
    (UserProfile.is_staff db u = false -> Course.state c <> published ->
     visible = false).
Proof.
  intros Hq. unfold Course.can_user_see_results. rewrite Hq. cbn.
  destruct (UserProfile.is_staff db u).
  - exists true. repeat split; intros; (reflexivity || discriminate || auto).
  - destruct (Course.state c) eqn:Hs; cbn;
      try (exists false; repeat split; intros;
           (reflexivity || discriminate || congruence)).
    destruct quorum.
    + exists true. repeat split; intros; try congruence; auto.
    + exists (Course.is_user_contributor_or_delegate db c u).
      repeat split; try congruence.
      * intros Hv. right. now apply is_user_contributor_or_delegate_iff.
      * intros [Hv | Hv]; [discriminate |].
        now apply is_user_contributor_or_delegate_iff.
Qed.

(** Staff see the results whatever the course looks like. *)
Lemma can_user_see_results_staff (c : Course.t) (u : user) :
  UserProfile.is_staff db u = true ->
  Course.can_user_see_results cfg db c u = Return true.
Proof. intros H. unfold Course.can_user_see_results. now rewrite H. Qed.

End Results.

(** C7 fails on the code. User 7 is not staff and is the contributor of a
    published course, so the results should be visible to them; the course
    has no participants and one voter, and the quorum test that runs first
    divides by zero. *)
Theorem can_user_see_results_divides_by_zero :
  UserProfile.is_staff db_plain 7 = false /\
  Course.state course_without_participants = published /\
  contributor_or_delegate db_plain course_without_participants 7 /\
  Course.can_user_see_results settings_scenario db_plain
    course_without_participants 7 = Raise ZeroDivisionError.
Proof.
  split; [reflexivity |]. split; [reflexivity |]. split; [| reflexivity].
  exists (lecturer 7 []). split; [| left; reflexivity].
  unfold course_without_participants, course_in. cbn.
  apply list_elem_of_further, list_elem_of_here.
Qed.

(** ** Archival *)

Section Archival.

Lemma is_archived_consistent (c : Course.t) :
  counts_consistent c ->
  Course.is_archived c = Return (negb (is_None (Course._participant_count c))).
Proof.
  unfold counts_consistent, Course.is_archived. intros [H1 H2].
  destruct (Course._participant_count c), (Course._voter_count c); cbn;
    try reflexivity.
  - discriminate H2; reflexivity.
  - discriminate H1; reflexivity.
Qed.

Lemma is_archived_cases (c : Course.t) :
  (exists b, Course.is_archived c = Return b) \/
  Course.is_archived c = Raise AssertionError.
Proof.
  unfold Course.is_archived. destruct (Bool.eqb _ _); eauto.
Qed.

Lemma is_archived_true (c : Course.t) :
  Course.is_archived c = Return true ->
  exists p v, Course._participant_count c = Some p /\
              Course._voter_count c = Some v.
Proof.
  unfold Course.is_archived.
  destruct (Course._participant_count c) as [p|],
           (Course._voter_count c) as [v|]; cbn; try discriminate.
  intros _. now exists p, v.
Qed.

(** A course that is archived or outside the two archiveable states. *)
Lemma is_archiveable_false (c : Course.t) :
  Course.is_archived c = Return true \/ Course.state c ∉ [new; published] ->
  counts_consistent c ->
  Course.is_archiveable c = Return false.
Proof.
  intros Hnot Hc. unfold Course.is_archiveable.
  destruct Hnot as [Ha | Hs].
  - now rewrite Ha.
  - rewrite (is_archived_consistent c Hc). cbn.
    destruct (negb _); cbn; [| reflexivity].
    f_equal. apply not_true_is_false. intros Hin. apply Hs.
    now apply state_in_elem_of.
Qed.

Lemma is_archiveable_returns (c : Course.t) :
  counts_consistent c -> exists b, Course.is_archiveable c = Return b.
Proof.
  intros Hc. unfold Course.is_archiveable.
  rewrite (is_archived_consistent c Hc). cbn. destruct (negb _); eauto.
Qed.

Lemma semester_not_archiveable (courses : list Course.t) :
  Forall counts_consistent courses ->
  (exists c, c ∈ courses /\
     (Course.is_archived c = Return true \/
      Course.state c ∉ [new; published])) ->
  py_all Course.is_archiveable courses = Return false.
Proof.
  induction 1 as [|c courses Hc Hall IH]; intros (bad & Hin & Hbad).
  - now apply elem_of_nil in Hin.
  - cbn. destruct (is_archiveable_returns c Hc) as [[] Hb]; rewrite Hb; cbn;
      [| reflexivity].
    apply IH. exists bad. split; [| assumption].
    apply elem_of_cons in Hin as [-> | Hin]; [| assumption].
    rewrite (is_archiveable_false c Hbad Hc) in Hb. discriminate Hb.
Qed.

(** Whatever the precondition check answers, short of [True], the
    semester is not touched. *)
Lemma archive_untouched (clock : nat -> Z) (s : Semester.t) :
  Semester.is_archiveable s <> Return true ->
  snd (Semester.archive clock s) = s.
Proof.
  unfold Semester.archive. destruct (Semester.is_archiveable s) as [[] | e];
    [congruence | reflexivity | reflexivity].
Qed.

Lemma transition_keeps_counts name source target conditions (c : Course.t) :
  Course._participant_count
    (snd (Course.transition name source target conditions c))
  = Course._participant_count c /\
  Course._voter_count (snd (Course.transition name source target conditions c))
  = Course._voter_count c.
Proof.
  unfold Course.transition.
  destruct (state_in (Course.state c) source); cbn; [| easy].
  now destruct (forallb (fun cond => cond c) conditions).
Qed.

Lemma save_keeps_counts (now : Z) (c : Course.t) :
  Course._participant_count (snd (Course.save now c))
  = Course._participant_count c /\
  Course._voter_count (snd (Course.save now c)) = Course._voter_count c /\
  Course.state (snd (Course.save now c)) = Course.state c.
Proof.
  unfold Course.save.
  now destruct (Course.general_contribution _) as [[?|]|?].
Qed.

Lemma archive_keeps_frozen (now : Z) (c : Course.t) :
  frozen_kept c (snd (Course._archive now c)).
Proof.
  unfold frozen_kept, Course._archive, Course.is_archiveable, Course.is_archived.
  destruct (Course._participant_count c) as [p|] eqn:Hp,
           (Course._voter_count c) as [v|] eqn:Hv; cbn;
    rewrite ?Hp, ?Hv; split; intros; congruence.
Qed.

Lemma run_keeps_frozen (op : operation) (c : Course.t) :
  frozen_kept c (snd (run op c)).
Proof.
  destruct op as [t | now | now]; cbn.
  - rewrite apply_transition_unfold.
    destruct (transition_keeps_counts (method_name t) (spec_From t) (spec_To t)
                (match t with
                 | T_review_finished => [Course.is_fully_checked]
                 | _ => []
                 end) c) as [Hp Hv].
    split; intros; congruence.
  - apply archive_keeps_frozen.
  - destruct (save_keeps_counts now c) as (Hp & Hv & _).
    split; intros; congruence.
Qed.

(** The operations keep the two frozen counts set together. *)
Lemma run_keeps_consistent (op : operation) (c : Course.t) :
  counts_consistent c -> counts_consistent (snd (run op c)).
Proof.
  unfold counts_consistent. intros Hc. destruct op as [t | now | now]; cbn.
  - rewrite apply_transition_unfold.
    destruct (transition_keeps_counts (method_name t) (spec_From t) (spec_To t)
                (match t with
                 | T_review_finished => [Course.is_fully_checked]
                 | _ => []
                 end) c) as [-> ->].
    assumption.
  - unfold Course._archive.
    destruct (Course.is_archiveable c) as [[]|e]; try assumption.
    destruct (save_keeps_counts now
                (Course.set_counts (Some (Course.count (Course.participants c)))
                                   (Some (Course.count (Course.voters c))) c))
      as (-> & -> & _).
    cbn. split; discriminate.
  - destruct (save_keeps_counts now c) as (-> & -> & _). assumption.
Qed.

Lemma frozen_kept_refl (c : Course.t) : frozen_kept c c.
Proof. split; auto. Qed.

Lemma archive_each_keeps_frozen (clock : nat -> Z) (i : nat)
    (courses : list Course.t) :
  Forall2 frozen_kept courses (snd (Semester.archive_each clock i courses)).
Proof.
  revert i. induction courses as [|c courses IH]; intros i; cbn; [constructor |].
  pose proof (archive_keeps_frozen (clock i) c) as Hc.
  destruct (Course._archive (clock i) c) as [[[]|e] c']; cbn in *.
  - specialize (IH (S i)).
    destruct (Semester.archive_each clock (S i) courses) as [r rest']; cbn in *.
    now constructor.
  - constructor; [assumption |].
    clear. induction courses; constructor; auto using frozen_kept_refl.
Qed.

Lemma semester_archive_keeps_frozen (clock : nat -> Z) (s : Semester.t) :
  Forall2 frozen_kept (Semester.course_set s)
          (Semester.course_set (snd (Semester.archive clock s))).
Proof.
  unfold Semester.archive.
  destruct (Semester.is_archiveable s) as [[]|e]; cbn;
    try (induction (Semester.course_set s); constructor;
         auto using frozen_kept_refl).
  pose proof (archive_each_keeps_frozen clock 0 (Semester.course_set s)) as H.
  now destruct (Semester.archive_each clock 0 (Semester.course_set s)).
Qed.

End Archival.

(** C4. A semester of courses whose frozen counts are set together, one
    of which is already archived or in a state other than [new] and
    [published]: archiving the semester raises [NotArchiveable] and leaves
    every course, frozen counts included, as it was. *)
Theorem semester_archive_refused (clock : nat -> Z) (s : Semester.t) :
  Forall counts_consistent (Semester.course_set s) ->
  (exists c, c ∈ Semester.course_set s /\
     (Course.is_archived c = Return true \/
      Course.state c ∉ [new; published])) ->
  Semester.archive clock s = (Raise NotArchiveable, s).
Proof.
  intros Hall Hbad. unfold Semester.archive, Semester.is_archiveable.
  now rewrite (semester_not_archiveable _ Hall Hbad).
Qed.

Lemma semester_archive_refused_witness :
  Semester.archive clock_from_100 semester_in_evaluation
  = (Raise NotArchiveable, semester_in_evaluation).
Proof.
  apply (semester_archive_refused clock_from_100 semester_in_evaluation).
  - repeat constructor; intros _; reflexivity.
  - exists (course_in inEvaluation [3; 4] [3]
                      [Contribution.create_general; lecturer 8 []]).
    split.
    + cbn. apply list_elem_of_further, list_elem_of_here.
    + right. cbn. rewrite !elem_of_cons, elem_of_nil.
      intros [H | [H | []]]; discriminate H.
Defined.

(** C5. Archiving a course that is already archived raises
    [NotArchiveable] and leaves the course, frozen counts included, as it
    was. No operation on a course, and no archiving of a semester, removes
    or changes a frozen count that is set. *)
Theorem archived_course_stays_archived (c : Course.t) :
  (Course.is_archived c = Return true ->
   forall now : Z, Course._archive now c = (Raise NotArchiveable, c)) /\
  (forall op : operation, frozen_kept c (snd (run op c))) /\
  (forall (clock : nat -> Z) (s : Semester.t),
     Forall2 frozen_kept (Semester.course_set s)
             (Semester.course_set (snd (Semester.archive clock s)))).
Proof.
  split; [| split].
  - intros Ha now. unfold Course._archive, Course.is_archiveable. now rewrite Ha.
  - intros op. apply run_keeps_frozen.
  - apply semester_archive_keeps_frozen.
Qed.

Lemma archived_course_stays_archived_witness :
  Course._archive 100 archived_course = (Raise NotArchiveable, archived_course).
Proof.
  apply (archived_course_stays_archived archived_course). reflexivity.
Defined.

(** ** The archived flag of a semester *)

Section SemesterArchived.

Lemma py_all_same (first_course_is_archived : bool) (courses : list Course.t) :
  let same := py_all (fun course =>
                        do a <- Course.is_archived course;
                        Return (Bool.eqb a first_course_is_archived)) courses in
  (same = Return true /\
   Forall (fun c => Course.is_archived c = Return first_course_is_archived)
          courses) \/
  ((same = Return false \/ same = Raise AssertionError) /\
   ~ Forall (fun c => Course.is_archived c = Return first_course_is_archived)
            courses).
Proof.
  induction courses as [|c courses IH]; cbn.
  - left. split; [reflexivity | constructor].
  - destruct (is_archived_cases c) as [[a Ha] | Ha]; rewrite Ha; cbn.
    + destruct (Bool.eqb a first_course_is_archived) eqn:Hab.
      * apply eqb_prop in Hab. subst a.
        destruct IH as [[Hs Hall] | [Hs Hnot]].
        -- left. split; [assumption | now constructor].
        -- right. split; [assumption |].
           intros Hall. apply Hnot. now inversion Hall.
      * right. split; [now left |]. intros Hall. inversion Hall as [|? ? Hc _].
        rewrite Ha in Hc. injection Hc as ->.
        now rewrite eqb_reflx in Hab.
    + right. split; [now right |]. intros Hall. inversion Hall as [|? ? Hc _].
      rewrite Ha in Hc. discriminate Hc.
Qed.

Lemma semester_is_archived_cons (first : Course.t) (rest : list Course.t) :
  (forall b, Semester.is_archived {| Semester.course_set := first :: rest |}
             = Return b
             <-> Forall (fun c => Course.is_archived c = Return b)
                        (first :: rest)) /\
  ((forall b, ~ Forall (fun c => Course.is_archived c = Return b)
                       (first :: rest)) ->
   Semester.is_archived {| Semester.course_set := first :: rest |}
   = Raise AssertionError).
Proof.
  unfold Semester.is_archived. cbn [Semester.course_set].
  replace (Course.count (first :: rest) =? 0) with false
    by (unfold Course.count; cbn [length]; symmetry; apply Z.eqb_neq; lia).
  destruct (is_archived_cases first) as [[b0 Hfirst] | Hfirst].
  - rewrite Hfirst. cbn [bind].
    pose proof (py_all_same b0 (first :: rest)) as Hsame. cbn zeta in Hsame.
    destruct Hsame as [[-> Hall] | [Hs Hnot]].
    + cbn [bind]. split.
      * intros b. split.
        -- intros [= <-]. assumption.
        -- intros Hb. inversion Hb as [|? ? Hc _]. congruence.
      * intros Hnone. now destruct (Hnone b0).
    + assert ((do same <- py_all
                           (fun course =>
                              do a <- Course.is_archived course;
                              Return (Bool.eqb a b0)) (first :: rest);
               if same then Return b0 else Raise AssertionError)
              = Raise AssertionError) as Hres
        by (destruct Hs as [-> | ->]; reflexivity).
      rewrite Hres. split; [| reflexivity].
      intros b. split; [discriminate |].
      intros Hb. exfalso. apply Hnot.
      inversion Hb as [|? ? Hc _]. now replace b0 with b by congruence.
  - rewrite Hfirst. cbn [bind]. split; [| reflexivity].
    intros b. split; [discriminate |].
    intros Hb. inversion Hb as [|? ? Hc _]. congruence.
Qed.

End SemesterArchived.

(** C9, as amended. A semester without courses is reported as not
    archived. For a semester with courses, [is_archived] returns a value
    exactly when every course reports that same value, so it returns true if
    and only if all courses are archived; when the courses do not all report
    the same value the assertion fails. *)
Theorem semester_is_archived_sound (s : Semester.t) :
  (Semester.course_set s = [] -> Semester.is_archived s = Return false) /\
  (Semester.course_set s <> [] ->
   (forall b, Semester.is_archived s = Return b
              <-> Forall (fun c => Course.is_archived c = Return b)
                         (Semester.course_set s)) /\
   ((forall b, ~ Forall (fun c => Course.is_archived c = Return b)
                        (Semester.course_set s)) ->
    Semester.is_archived s = Raise AssertionError)).
Proof.
  destruct s as [[|first rest]]; cbn [Semester.course_set].
  - split; [reflexivity | congruence].
  - split; [discriminate |]. intros _. apply semester_is_archived_cons.
Qed.

Lemma semester_is_archived_sound_witness :
  Semester.is_archived mixed_semester = Raise AssertionError.
Proof.
  apply (semester_is_archived_sound mixed_semester).
  - discriminate.
  - intros b Hall. cbn in Hall.
    inversion Hall as [|? ? H1 Hrest]. inversion Hrest as [|? ? H2 _].
    vm_compute in H1, H2. congruence.
Defined.

(** C9, as stated, fails on the semester without courses: all of its
    (no) courses are archived, and it is not reported as archived. *)
Lemma empty_semester_not_archived :
  Forall (fun c => Course.is_archived c = Return true)
         (Semester.course_set empty_semester) /\
  ~ (Semester.is_archived empty_semester = Return true
     <-> Forall (fun c => Course.is_archived c = Return true)
                (Semester.course_set empty_semester)).
Proof.
  split; [constructor |].
  intros [_ H]. discriminate H. constructor.
Qed.

(** ** The general contribution *)

Section GeneralContribution.

Lemma general_contribution_one (c : Course.t) :
  length (general_contributions c) = 1%nat ->
  exists g, Course.general_contribution c = Return (Some g).
Proof.
  unfold general_contributions, Course.general_contribution.
  destruct (List.filter _ _) as [|g [|g' l]]; cbn; try discriminate.
  intros _. now exists g.
Qed.

(** The first [save] of a course creates the general contribution. *)
Lemma save_creates_general (now : Z) (c : Course.t) :
  Course.contributions c = [] ->
  Course.save now c
  = (Return tt,
     Course.set_contributions [Contribution.create_general]
       (Course.set_last_modified_time now c)).
Proof.
  intros Hc. unfold Course.save, Course.general_contribution. cbn.
  now rewrite Hc.
Qed.

(** A [save] that returns leaves exactly one general contribution. *)
Lemma save_establishes (now : Z) (c : Course.t) :
  fst (Course.save now c) = Return tt ->
  length (general_contributions (snd (Course.save now c))) = 1%nat.
Proof.
  unfold Course.save, Course.general_contribution, general_contributions. cbn.
  destruct (List.filter _ _) as [|g [|g' l]] eqn:Hf; cbn.
  - intros _. rewrite List.filter_app, Hf. reflexivity.
  - intros _. now rewrite Hf.
  - discriminate.
Qed.

(** With one general contribution in place, [save] creates nothing: it
    stamps the row. *)
Lemma save_idle (now : Z) (c : Course.t) :
  length (general_contributions c) = 1%nat ->
  Course.save now c = (Return tt, Course.set_last_modified_time now c).
Proof.
  intros H1.
  destruct (general_contribution_one (Course.set_last_modified_time now c) H1)
    as [g Hg].
  unfold Course.save. now rewrite Hg.
Qed.

Lemma transition_keeps_contributions name source target conditions
    (c : Course.t) :
  Course.contributions (snd (Course.transition name source target conditions c))
  = Course.contributions c.
Proof.
  unfold Course.transition.
  destruct (state_in (Course.state c) source); cbn; [| easy].
  now destruct (forallb (fun cond => cond c) conditions).
Qed.

Lemma run_keeps_contributions (op : operation) (c : Course.t) :
  length (general_contributions c) = 1%nat ->
  Course.contributions (snd (run op c)) = Course.contributions c.
Proof.
  intros H1. destruct op as [t | now | now]; cbn.
  - rewrite apply_transition_unfold. apply transition_keeps_contributions.
  - unfold Course._archive.
    destruct (Course.is_archiveable c) as [[]|e]; try reflexivity.
    now rewrite save_idle.
  - now rewrite save_idle.
Qed.

Lemma reachable_one_general (c : Course.t) :
  reachable c -> length (general_contributions c) = 1%nat.
Proof.
  induction 1 as [now c Hsave | op c Hc IH].
  - now apply save_establishes.
  - unfold general_contributions in *.
    now rewrite (run_keeps_contributions op c IH).
Qed.

End GeneralContribution.

(** C8. A course that has been saved, at any point of its life under the
    operations of the core (transitions, archiving, further saves), has
    exactly one contribution without contributor, and no operation creates
    or removes a contribution of it any more: the general contribution is
    created once, by the first save. *)
Theorem general_contribution_unique (c : Course.t) :
  reachable c ->
  length (general_contributions c) = 1%nat /\
  forall op : operation,
    Course.contributions (snd (run op c)) = Course.contributions c.
Proof.
  intros Hr. pose proof (reachable_one_general c Hr) as H1.
  split; [assumption |]. intros op. now apply run_keeps_contributions.
Qed.

(** C8 on a new course that is saved, approved by staff and saved again. *)
Lemma general_contribution_unique_witness :
  length (general_contributions
            (snd (run (Op_save 101)
                    (snd (run (Op_transition T_staff_approve)
                            (snd (Course.save 100 unsaved_course))))))) = 1%nat /\
  forall op : operation,
    Course.contributions
      (snd (run op
              (snd (run (Op_save 101)
                      (snd (run (Op_transition T_staff_approve)
                              (snd (Course.save 100 unsaved_course))))))))
    = Course.contributions
        (snd (run (Op_save 101)
                (snd (run (Op_transition T_staff_approve)
                        (snd (Course.save 100 unsaved_course)))))).
Proof.
  apply (general_contribution_unique
           (snd (run (Op_save 101)
                   (snd (run (Op_transition T_staff_approve)
                           (snd (Course.save 100 unsaved_course))))))).
  apply reachable_step, reachable_step, reachable_saved. reflexivity.
Defined.

(** ** Notification recipients *)

Section Recipients.

Variable db : Database.

Lemma group_in_elem_of (name : string) (recipient_groups : list string) :
  EmailTemplate.group_in name recipient_groups = true <-> name ∈ recipient_groups.
Proof.
  unfold EmailTemplate.group_in.
  induction recipient_groups as [|g l IH]; cbn.
  - rewrite elem_of_nil. split; [discriminate | tauto].
  - rewrite elem_of_cons, orb_true_iff, IH, String.eqb_eq. tauto.
Qed.

Lemma group_in_not_elem_of (name : string) (recipient_groups : list string) :
  EmailTemplate.group_in name recipient_groups = false <-> name ∉ recipient_groups.
Proof.
  rewrite <- group_in_elem_of. now destruct (EmailTemplate.group_in _ _).
Qed.

Lemma cc_users_elem_of (r u : user) :
  u ∈ UserProfile.cc_users db r <-> (r, u) ∈ cc_users_table db.
Proof.
  unfold UserProfile.cc_users.
  induction (cc_users_table db) as [|[a b] l IH]; cbn.
  - now rewrite !elem_of_nil.
  - destruct (a =? r) eqn:Ha; cbn; rewrite ?elem_of_cons, IH.
    + apply Z.eqb_eq in Ha. subst a. split.
      * intros [-> | H]; [now left | now right].
      * intros [[= ->] | H]; [now left | now right].
    + apply Z.eqb_neq in Ha. split; [now right |].
      intros [[= -> ->] | H]; [congruence | assumption].
Qed.

Lemma delegates_elem_of (r u : user) :
  u ∈ UserProfile.delegates db r <-> (r, u) ∈ delegates_table db.
Proof.
  unfold UserProfile.delegates.
  induction (delegates_table db) as [|[a b] l IH]; cbn.
  - now rewrite !elem_of_nil.
  - destruct (a =? r) eqn:Ha; cbn; rewrite ?elem_of_cons, IH.
    + apply Z.eqb_eq in Ha. subst a. split.
      * intros [-> | H]; [now left | now right].
      * intros [[= ->] | H]; [now left | now right].
    + apply Z.eqb_neq in Ha. split; [now right |].
      intros [[= -> ->] | H]; [congruence | assumption].
Qed.

(** The contributors of the rows of [rows] that have one and pass [keep]. *)
Lemma contributors_elem_of (keep : Contribution.t -> bool)
    (rows : list Contribution.t) (x : option user) :
  x ∈ map Contribution.contributor
        (List.filter keep
           (List.filter (fun c => negb (Contribution.is_general c)) rows))
  <-> exists u ct, x = Some u /\ ct ∈ rows /\
                   Contribution.contributor ct = Some u /\ keep ct = true.
Proof.
  rewrite list_elem_of_In, in_map_iff. split.
  - intros (ct & Hx & Hin). apply filter_In in Hin as [Hin Hk].
    apply filter_In in Hin as [Hin Hg]. unfold Contribution.is_general in Hg.
    destruct (Contribution.contributor ct) as [u|] eqn:Hct; [| discriminate].
    exists u, ct. rewrite list_elem_of_In. now subst x.
  - intros (u & ct & -> & Hin & Hct & Hk). exists ct. split; [assumption |].
    apply filter_In. split; [| assumption].
    apply filter_In. split; [now apply list_elem_of_In |].
    unfold Contribution.is_general. now rewrite Hct.
Qed.

Lemma filter_true {A : Type} (l : list A) : List.filter (fun _ => true) l = l.
Proof. induction l; cbn; congruence. Qed.

Lemma due_participants_elem_of (c : Course.t) (u : user) :
  u ∈ Course.due_participants c
  <-> u ∈ Course.participants c /\ u ∉ Course.voters c.
Proof.
  unfold Course.due_participants.
  rewrite (list_elem_of_In _ u), filter_In, negb_true_iff, <- list_elem_of_In.
  rewrite <- (user_in_elem_of u (Course.voters c)).
  now destruct (user_in u (Course.voters c)).
Qed.

Lemma some_elem_of_map (u : user) (l : list user) :
  Some u ∈ map Some l <-> u ∈ l.
Proof.
  rewrite !list_elem_of_In, in_map_iff. split.
  - now intros (v & [= ->] & Hin).
  - intros Hin. now exists u.
Qed.

Lemma recipients1_elem_of (c : Course.t) (recipient_groups : list string)
    (r : user) (x : option user) :
  Course.responsible_contributor c = Return (Some r) ->
  x ∈ (if EmailTemplate.group_in "responsible" recipient_groups
       then [Some r] else [])
  <-> exists u, x = Some u /\ "responsible"%string ∈ recipient_groups /\
                Course.responsible_contributor c = Return (Some u).
Proof.
  intros Hr. rewrite Hr.
  destruct (EmailTemplate.group_in _ _) eqn:Hg.
  - apply group_in_elem_of in Hg. rewrite list_elem_of_singleton. split.
    + intros ->. now exists r.
    + intros (u & -> & _ & [= ->]). reflexivity.
  - apply group_in_not_elem_of in Hg. rewrite elem_of_nil. split; [tauto |].
    intros (u & _ & Hin & _). now apply Hg.
Qed.

Lemma recipients2_elem_of (c : Course.t) (recipient_groups : list string)
    (x : option user) :
  let named := List.filter (fun c => negb (Contribution.is_general c))
                           (Course.contributions c) in
  x ∈ (if EmailTemplate.group_in "contributors" recipient_groups then
         map Contribution.contributor named
       else if EmailTemplate.group_in "editors" recipient_groups then
         map Contribution.contributor (List.filter Contribution.can_edit named)
       else [])
  <-> exists u, x = Some u /\
        (("contributors"%string ∈ recipient_groups /\
          exists ct, ct ∈ Course.contributions c /\
                     Contribution.contributor ct = Some u) \/
         (("contributors"%string ∉ recipient_groups) /\
          "editors"%string ∈ recipient_groups /\
          exists ct, ct ∈ Course.contributions c /\
                     Contribution.contributor ct = Some u /\
                     Contribution.can_edit ct = true)).
Proof.
  intros named. subst named.
  destruct (EmailTemplate.group_in "contributors" _) eqn:Hc.
  - apply group_in_elem_of in Hc.
    rewrite <- (filter_true (List.filter _ _)), contributors_elem_of. split.
    + intros (u & ct & -> & Hin & Hct & _). exists u. split; [reflexivity |].
      left. split; [assumption |]. now exists ct.
    + intros (u & -> & [(_ & ct & Hin & Hct) | (Hn & _)]); [| now destruct Hn].
      now exists u, ct.
  - apply group_in_not_elem_of in Hc.
    destruct (EmailTemplate.group_in "editors" _) eqn:He.
    + apply group_in_elem_of in He. rewrite contributors_elem_of. split.
      * intros (u & ct & -> & Hin & Hct & Hk). exists u. split; [reflexivity |].
        right. repeat split; try assumption. now exists ct.
      * intros (u & -> & [(Hy & _) | (_ & _ & ct & Hin & Hct & Hk)]);
          [now destruct Hc |].
        now exists u, ct.
    + apply group_in_not_elem_of in He. rewrite elem_of_nil. split; [tauto |].
      intros (u & _ & [(Hy & _) | (_ & Hy & _)]); [now apply Hc | now apply He].
Qed.

Lemma recipients3_elem_of (c : Course.t) (recipient_groups : list string)
    (x : option user) :
  x ∈ (if EmailTemplate.group_in "all_participants" recipient_groups then
         map Some (Course.participants c)
       else if EmailTemplate.group_in "due_participants" recipient_groups then
         map Some (Course.due_participants c)
       else [])
  <-> exists u, x = Some u /\
        (("all_participants"%string ∈ recipient_groups /\
          u ∈ Course.participants c) \/
         (("all_participants"%string ∉ recipient_groups) /\
          "due_participants"%string ∈ recipient_groups /\
          u ∈ Course.participants c /\ u ∉ Course.voters c)).
Proof.
  assert (forall l : list user,
             x ∈ map Some l <-> exists u, x = Some u /\ u ∈ l) as Hmap.
  { intros l. split.
    - intros Hx. apply list_elem_of_In, in_map_iff in Hx as (u & <- & Hin).
      exists u. split; [reflexivity | now apply list_elem_of_In].
    - intros (u & -> & Hin). now apply some_elem_of_map. }
  destruct (EmailTemplate.group_in "all_participants" _) eqn:Ha.
  - apply group_in_elem_of in Ha. rewrite Hmap. split.
    + intros (u & -> & Hin). exists u. split; [reflexivity | now left].
    + intros (u & -> & [(_ & Hin) | (Hn & _)]); [| now destruct Hn].
      now exists u.
  - apply group_in_not_elem_of in Ha.
    destruct (EmailTemplate.group_in "due_participants" _) eqn:Hd.
    + apply group_in_elem_of in Hd. rewrite Hmap. split.
      * intros (u & -> & Hin). apply due_participants_elem_of in Hin.
        exists u. split; [reflexivity |]. now right.
      * intros (u & -> & [(Hy & _) | (_ & _ & Hin)]); [now destruct Ha |].
        exists u. split; [reflexivity |]. now apply due_participants_elem_of.
    + apply group_in_not_elem_of in Hd. rewrite elem_of_nil. split; [tauto |].
      intros (u & _ & [(Hy & _) | (_ & Hy & _)]); [now apply Ha | now apply Hd].
Qed.

(** The recipient list of the code is the one of the rules. *)
Lemma recipient_list_sound (c : Course.t) (recipient_groups : list string)
    (r : user) :
  Course.responsible_contributor c = Return (Some r) ->
  exists l,
    EmailTemplate.recipient_list_for_course c recipient_groups = Return l /\
    forall x, x ∈ l <-> exists u, x = Some u /\ is_recipient recipient_groups c u.
Proof.
  intros Hr. unfold EmailTemplate.recipient_list_for_course. rewrite Hr.
  eexists. split.
  - destruct (EmailTemplate.group_in "responsible" recipient_groups) eqn:Hg;
      cbn [bind].
    + instantiate (1 := (if EmailTemplate.group_in "responsible" recipient_groups
                         then [Some r] else []) ++ _ ++ _).
      rewrite Hg. reflexivity.
    + rewrite Hg. reflexivity.
  - intros x. rewrite !elem_of_app, (recipients1_elem_of c _ r x Hr).
    pose proof (recipients2_elem_of c recipient_groups x) as H2.
    cbn zeta in H2. rewrite H2, recipients3_elem_of.
    unfold is_recipient. split.
    + intros [(u & -> & H) | [(u & -> & H) | (u & -> & H)]];
        exists u; (split; [reflexivity | tauto]).
    + intros (u & -> & [H | [H | [H | [H | H]]]]).
      * left. exists u. tauto.
      * right. left. exists u. tauto.
      * right. left. exists u. tauto.
      * right. right. exists u. tauto.
      * right. right. exists u. tauto.
Qed.

Lemma is_addressed_sound (r u : user) :
  exists addressed,
    EmailTemplate.is_addressed db (Some r) (Some u) = Return addressed /\
    (addressed = true <->
     UserProfile.email db u <> ""%string /\
     ((r, u) ∉ cc_users_table db) /\ (r, u) ∉ delegates_table db).
Proof.
  unfold EmailTemplate.is_addressed, str_truthy.
  destruct (String.eqb_spec (UserProfile.email db u) "") as [He | He]; cbn.
  - exists false. split; [reflexivity |]. split; [discriminate | tauto].
  - eexists. split; [reflexivity |].
    rewrite <- cc_users_elem_of, <- delegates_elem_of, <- !user_in_elem_of.
    destruct (user_in u (UserProfile.cc_users db r)),
             (user_in u (UserProfile.delegates db r)); cbn;
      intuition (try discriminate; try congruence).
Qed.

Lemma listed_setdefault_append (u u' : user) (c c' : Course.t)
    (m : gmap user (list Course.t)) :
  listed (EmailTemplate.setdefault_append u c m) u' c'
  <-> listed m u' c' \/ (u' = u /\ c' = c).
Proof.
  unfold listed, EmailTemplate.setdefault_append.
  destruct (decide (u = u')) as [<- | Hne].
  - rewrite lookup_insert_eq. split.
    + intros (cs & [= <-] & Hin). apply elem_of_app in Hin as [Hin | Hin].
      * left. destruct (m !! u) as [cs0|]; cbn in Hin.
        -- now exists cs0.
        -- now apply elem_of_nil in Hin.
      * right. apply list_elem_of_singleton in Hin. now split.
    + intros [(cs & Hcs & Hin) | [_ ->]]; eexists; (split; [reflexivity |]);
        apply elem_of_app.
      * left. now rewrite Hcs.
      * right. now apply list_elem_of_singleton.
  - rewrite lookup_insert_ne by assumption. split.
    + intros H. now left.
    + intros [H | [-> _]]; [assumption | congruence].
Qed.

Lemma setdefault_append_nonempty (u : user) (c : Course.t)
    (m : gmap user (list Course.t)) :
  (forall v cs, m !! v = Some cs -> cs <> []) ->
  forall v cs, EmailTemplate.setdefault_append u c m !! v = Some cs -> cs <> [].
Proof.
  intros Hm v cs. unfold EmailTemplate.setdefault_append.
  destruct (decide (u = v)) as [<- | Hne].
  - rewrite lookup_insert_eq. intros [= <-].
    now destruct (default [] (m !! u)).
  - rewrite lookup_insert_ne by assumption. apply Hm.
Qed.

(** The inner loop: the recipients of [course] that are addressed get
    [course] appended, nothing else changes. *)
Lemma add_recipients_sound (course : Course.t) (r : user)
    (recipients : list (option user)) :
  (forall x, x ∈ recipients -> x <> None) ->
  forall m : gmap user (list Course.t),
  exists m',
    EmailTemplate.add_recipients db course (Some r) recipients m = Return m' /\
    (forall u c,
        listed m' u c
        <-> listed m u c \/
            (c = course /\ Some u ∈ recipients /\
             UserProfile.email db u <> ""%string /\
             ((r, u) ∉ cc_users_table db) /\ (r, u) ∉ delegates_table db)) /\
    ((forall v cs, m !! v = Some cs -> cs <> []) ->
     forall v cs, m' !! v = Some cs -> cs <> []).
Proof.
  induction recipients as [|x rest IH]; intros Hsome m.
  - exists m. split; [reflexivity |]. split; [| auto].
    intros u c. split; [now left |].
    intros [H | (_ & Hin & _)]; [assumption | now apply elem_of_nil in Hin].
  - destruct x as [u0|]; [| now destruct (Hsome None (list_elem_of_here _ _))].
    cbn [EmailTemplate.add_recipients].
    destruct (is_addressed_sound r u0) as (addressed & -> & Haddr). cbn [bind].
    assert (forall x, x ∈ rest -> x <> None) as Hrest
      by (intros x Hx; apply Hsome; now right).
    destruct (IH Hrest (if addressed
                        then EmailTemplate.setdefault_append u0 course m
                        else m)) as (m' & -> & Hlisted & Hnonempty).
    exists m'. split; [reflexivity |]. split.
    + intros u c. rewrite Hlisted, elem_of_cons. destruct addressed.
      * rewrite listed_setdefault_append.
        assert (UserProfile.email db u0 <> ""%string /\
                ((r, u0) ∉ cc_users_table db) /\ (r, u0) ∉ delegates_table db)
          as Hu0 by now apply Haddr.
        split.
        -- intros [[H | [-> ->]] | H]; [now left | | ].
           ++ right. split; [reflexivity |]. split; [now left | assumption].
           ++ right. destruct H as (Hc & Hin & Hrest'). repeat split; tauto.
        -- intros [Hold | (Hc & [Heq | Hin] & Hok)].
           ++ left. now left.
           ++ injection Heq as ->. left. right. now split.
           ++ right. tauto.
      * split.
        -- intros [Hold | (Hc & Hin & Hok)]; [now left | right; tauto].
        -- intros [Hold | (Hc & [Heq | Hin] & Hok)]; [now left | | right; tauto].
           injection Heq as ->. exfalso. apply Haddr in Hok. discriminate Hok.
    + intros Hm. apply Hnonempty. destruct addressed; [| assumption].
      now apply setdefault_append_nonempty.
Qed.

(** The outer loop. *)
Lemma add_courses_sound (recipient_groups : list string)
    (courses : list Course.t) :
  Forall (fun c => exists r, Course.responsible_contributor c = Return (Some r))
         courses ->
  forall m : gmap user (list Course.t),
  exists m',
    EmailTemplate.add_courses db courses recipient_groups m = Return m' /\
    (forall u c,
        listed m' u c
        <-> listed m u c \/ (c ∈ courses /\ qualifies db recipient_groups c u)) /\
    ((forall v cs, m !! v = Some cs -> cs <> []) ->
     forall v cs, m' !! v = Some cs -> cs <> []).
Proof.
  induction 1 as [|course rest [r Hr] Hall IH]; intros m.
  - exists m. split; [reflexivity |]. split; [| auto].
    intros u c. split; [now left |].
    intros [H | (Hin & _)]; [assumption | now apply elem_of_nil in Hin].
  - cbn [EmailTemplate.add_courses]. rewrite Hr. cbn [bind].
    destruct (recipient_list_sound course recipient_groups r Hr)
      as (recipients & -> & Hrecipients). cbn [bind].
    assert (forall x, x ∈ recipients -> x <> None) as Hsome.
    { intros x Hx. apply Hrecipients in Hx as (u & -> & _). discriminate. }
    destruct (add_recipients_sound course r recipients Hsome m)
      as (m1 & -> & Hlisted1 & Hnonempty1). cbn [bind].
    destruct (IH m1) as (m' & -> & Hlisted & Hnonempty).
    exists m'. split; [reflexivity |].
    split; [| intros Hm; now apply Hnonempty, Hnonempty1].
    intros u c. rewrite Hlisted, Hlisted1, elem_of_cons.
    assert (qualifies db recipient_groups course u
            <-> Some u ∈ recipients /\ UserProfile.email db u <> ""%string /\
                ((r, u) ∉ cc_users_table db) /\ (r, u) ∉ delegates_table db)
      as Hq.
    { unfold qualifies, already_informed. rewrite Hrecipients. split.
      - intros (Hrec & Hmail & Hnot). split; [now exists u |].
        split; [assumption |].
        split; intros Hrow; apply Hnot; exists r; tauto.
      - intros ((u' & [= <-] & Hrec) & Hmail & Hcc & Hdel).
        split; [assumption |]. split; [assumption |].
        intros (r' & Hr' & Hrow). rewrite Hr in Hr'. injection Hr' as <-.
        tauto. }
    split.
    + intros [[H | (-> & H)] | H]; [now left | | right].
      * right. split; [now left | now apply Hq].
      * split; [now right | tauto].
    + intros [H | ([-> | Hin] & H)].
      * left. now left.
      * left. right. split; [reflexivity | now apply Hq].
      * right. now split.
Qed.

End Recipients.

(** C6. For courses that each have a responsible contributor, the batch
    aggregation returns a mapping in which a course is listed for a user
    exactly when it is one of the given courses, the user is on its
    recipient list under the group rules, has an email address, and is
    neither a cc user nor a delegate of the responsible contributor of that
    course. Each user is one key of the mapping, with a non-empty list that
    collects all of their courses. *)
Theorem send_to_users_in_courses_sound (db : Database)
    (courses : list Course.t) (recipient_groups : list string) :
  Forall (fun c => exists r, Course.responsible_contributor c = Return (Some r))
         courses ->
  exists user_course_map,
    EmailTemplate.send_to_users_in_courses db courses recipient_groups
    = Return user_course_map /\
    (forall u c,
        listed user_course_map u c
        <-> c ∈ courses /\ qualifies db recipient_groups c u) /\
    (forall u cs, user_course_map !! u = Some cs -> cs <> []) /\
    NoDup (map_to_list user_course_map).*1.
Proof.
  intros Hall. unfold EmailTemplate.send_to_users_in_courses.
  destruct (add_courses_sound db recipient_groups courses Hall ∅)
    as (m & -> & Hlisted & Hnonempty).
  exists m. split; [reflexivity |]. split; [| split].
  - intros u c. rewrite Hlisted. split; [| now right].
    intros [(cs & Hcs & _) | H]; [| assumption].
    rewrite lookup_empty in Hcs. discriminate Hcs.
  - apply Hnonempty. intros v cs Hv. rewrite lookup_empty in Hv. discriminate Hv.
  - apply NoDup_fst_map_to_list.
Qed.

Lemma send_to_users_in_courses_sound_witness :
  exists user_course_map,
    EmailTemplate.send_to_users_in_courses db_cc [course_A; course_B]
      ["due_participants"%string]
    = Return user_course_map /\
    (forall u c,
        listed user_course_map u c
        <-> c ∈ [course_A; course_B] /\
            qualifies db_cc ["due_participants"%string] c u) /\
    (forall u cs, user_course_map !! u = Some cs -> cs <> []) /\
    NoDup (map_to_list user_course_map).*1.
Proof.
  apply (send_to_users_in_courses_sound db_cc [course_A; course_B]
           ["due_participants"%string]).
  constructor; [exists 7; reflexivity |].
  constructor; [exists 8; reflexivity |].
  constructor.
Defined.

(** The notification scenario: user 1 is charged course A and not course
    B; user 2 has voted, user 5 has no address. *)
Example due_participants_scenario :
  EmailTemplate.send_to_users_in_courses db_cc [course_A; course_B]
    ["due_participants"%string]
  = Return (<[1 := [course_A]]> (<[3 := [course_B]]> ∅)).
Proof. vm_compute. reflexivity. Qed.

(** A user who is on the recipient list of a course twice has the course
    appended twice. *)
Example responsible_and_contributor_listed_twice :
  EmailTemplate.send_to_users_in_courses db_plain [course_A]
    ["responsible"%string; "contributors"%string]
  = Return (<[7 := [course_A; course_A]]> ∅).
Proof. vm_compute. reflexivity. Qed.

(** * Further properties *)

(** ** The lifecycle as a whole *)

Section LifecycleMore.

Lemma transition_state name source target conditions (c : Course.t) :
  snd (Course.transition name source target conditions c) = c \/
  (state_in (Course.state c) source = true /\
   forallb (fun cond => cond c) conditions = true /\
   snd (Course.transition name source target conditions c)
   = Course.set_state target c).
Proof.
  unfold Course.transition.
  destruct (state_in (Course.state c) source); cbn; [| now left].
  destruct (forallb (fun cond => cond c) conditions); cbn; [now right | now left].
Qed.

Lemma archive_keeps_state (now : Z) (c : Course.t) :
  Course.state (snd (Course._archive now c)) = Course.state c.
Proof.
  unfold Course._archive.
  destruct (Course.is_archiveable c) as [[]|e]; try reflexivity.
  now destruct (save_keeps_counts now
                  (Course.set_counts (Some (Course.count (Course.participants c)))
                                     (Some (Course.count (Course.voters c))) c))
    as (_ & _ & ->).
Qed.

Lemma table_moves_forward (t : Transition) (s : State) :
  state_in s (spec_From t) = true -> (phase s <= phase (spec_To t))%nat.
Proof. destruct t, s; cbn; intros H; try discriminate H; lia. Qed.

Lemma run_moves_forward (op : operation) (c : Course.t) :
  (phase (Course.state c) <= phase (Course.state (snd (run op c))))%nat.
Proof.
  destruct op as [t | now | now]; cbn.
  - rewrite apply_transition_unfold.
    destruct (transition_state (method_name t) (spec_From t) (spec_To t)
                (match t with
                 | T_review_finished => [Course.is_fully_checked]
                 | _ => []
                 end) c) as [-> | (Hs & _ & ->)]; [lia |].
    now apply table_moves_forward.
  - rewrite archive_keeps_state. lia.
  - destruct (save_keeps_counts now c) as (_ & _ & ->). lia.
Qed.

Lemma save_keeps_textanswers (now : Z) (c : Course.t) :
  Course.textanswer_set (snd (Course.save now c)) = Course.textanswer_set c.
Proof.
  unfold Course.save, Course.textanswer_set.
  destruct (Course.general_contribution _) as [[g|]|e]; cbn; try reflexivity.
  rewrite List.map_app, concat_app. cbn. now rewrite app_nil_r.
Qed.

Lemma run_keeps_textanswers (op : operation) (c : Course.t) :
  Course.textanswer_set (snd (run op c)) = Course.textanswer_set c.
Proof.
  destruct op as [t | now | now]; cbn.
  - rewrite apply_transition_unfold. unfold Course.textanswer_set.
    now rewrite transition_keeps_contributions.
  - unfold Course._archive.
    destruct (Course.is_archiveable c) as [[]|e]; try reflexivity.
    now rewrite save_keeps_textanswers.
  - apply save_keeps_textanswers.
Qed.

Lemma transition_enabled (t : Transition) (c : Course.t) :
  fst (apply_transition t c) = Return tt
  <-> state_in (Course.state c) (spec_From t) = true /\
      (t = T_review_finished -> Course.is_fully_checked c = true).
Proof.
  rewrite apply_transition_unfold, <- guard_of_transition.
  unfold Course.transition.
  destruct (state_in (Course.state c) (spec_From t)); cbn;
    [destruct (forallb _ _) |]; cbn;
    intuition (try discriminate; try congruence).
Qed.

End LifecycleMore.

(** X1. No sequence of operations takes a course back to an earlier phase
    of the evaluation: preparation (new, prepared, lecturerApproved),
    approved, in evaluation, evaluated, results (reviewed, published). This
    holds whether the single operations return or raise. *)
Theorem lifecycle_never_goes_back (ops : list operation) (c : Course.t) :
  (phase (Course.state c) <= phase (Course.state (run_all ops c)))%nat.
Proof.
  unfold run_all. revert c.
  induction ops as [|op ops IH]; intros c; cbn; [lia |].
  etransitivity; [apply (run_moves_forward op c) | apply IH].
Qed.

(** X2. Called on a new course, the transitions staff_approve,
    evaluation_begin, evaluation_end, review_finished and publish, in
    this order, end in state published when all text answers are checked,
    and get stuck in state evaluated otherwise; nothing but the state
    changes. *)
Theorem evaluation_path_result (c : Course.t) :
  Course.state c = new ->
  run_all evaluation_path c
  = Course.set_state
      (if Course.is_fully_checked c then published else evaluated) c.
Proof.
  intros Hs. destruct c as [st ps pc vs vc time cs]. cbn in Hs. subst st.
  unfold run_all, evaluation_path. cbn.
  unfold Course.review_finished, Course.transition. cbn.
  unfold Course.is_fully_checked, Course.open_textanswer_set,
    Course.textanswer_set. cbn.
  now destruct (exists_ _).
Qed.

Lemma evaluation_path_result_witness :
  run_all evaluation_path fresh_course
  = Course.set_state
      (if Course.is_fully_checked fresh_course then published else evaluated)
      fresh_course.
Proof. apply (evaluation_path_result fresh_course). reflexivity. Defined.

(** X3. Some transition can be taken from every course, except from one
    in state evaluated with an unchecked text answer: there every
    transition is refused until the review is done. *)
Theorem transition_available_iff (c : Course.t) :
  (exists t, fst (apply_transition t c) = Return tt)
  <-> ~ (Course.state c = evaluated /\ Course.is_fully_checked c = false).
Proof.
  split.
  - intros (t & Ht) [Hs Hc]. apply transition_enabled in Ht as [Hin Hg].
    rewrite Hs in Hin. destruct t; cbn in Hin; try discriminate Hin.
    rewrite Hg in Hc by reflexivity. discriminate Hc.
  - intros Hnot.
    destruct (Course.state c) eqn:Hs.
    + exists T_staff_approve. apply transition_enabled. rewrite Hs.
      split; [reflexivity | discriminate].
    + exists T_staff_approve. apply transition_enabled. rewrite Hs.
      split; [reflexivity | discriminate].
    + exists T_staff_approve. apply transition_enabled. rewrite Hs.
      split; [reflexivity | discriminate].
    + exists T_evaluation_begin. apply transition_enabled. rewrite Hs.
      split; [reflexivity | discriminate].
    + exists T_evaluation_end. apply transition_enabled. rewrite Hs.
      split; [reflexivity | discriminate].
    + exists T_review_finished. apply transition_enabled. rewrite Hs.
      split; [reflexivity |]. intros _.
      destruct (Course.is_fully_checked c); [reflexivity |].
      now destruct Hnot.
    + exists T_publish. apply transition_enabled. rewrite Hs.
      split; [reflexivity | discriminate].
    + exists T_revoke. apply transition_enabled. rewrite Hs.
      split; [reflexivity | discriminate].
Qed.

(** X4. No operation on a course adds, removes or changes a text answer
    of it, so the review status that guards [review_finished] is the same
    before and after every transition, save and archiving. *)
Theorem operations_keep_review_status (op : operation) (c : Course.t) :
  Course.textanswer_set (snd (run op c)) = Course.textanswer_set c /\
  Course.is_fully_checked (snd (run op c)) = Course.is_fully_checked c.
Proof.
  pose proof (run_keeps_textanswers op c) as H. split; [assumption |].
  unfold Course.is_fully_checked, Course.open_textanswer_set. now rewrite H.
Qed.

(** ** Staff permissions *)

(** X5. [can_staff_approve] holds exactly when the [staff_approve]
    transition would succeed, and [review_finished] succeeds exactly in
    state evaluated when [can_staff_review] is false. *)
Theorem staff_predicates_match_transitions (c : Course.t) :
  (CourseQueries.can_staff_approve c = true
   <-> fst (Course.staff_approve c) = Return tt) /\
  (fst (Course.review_finished c) = Return tt
   <-> Course.state c = evaluated /\ CourseQueries.can_staff_review c = false).
Proof.
  unfold CourseQueries.can_staff_approve, CourseQueries.can_staff_review,
    Course.staff_approve, Course.review_finished, Course.transition.
  destruct (Course.state c); cbn;
    destruct (Course.is_fully_checked c); cbn;
    intuition (try discriminate; try congruence).
Qed.

Section StaffPermissions.

Lemma can_staff_edit_consistent (c : Course.t) :
  counts_consistent c ->
  CourseQueries.can_staff_edit c
  = Return (is_None (Course._participant_count c)
            && state_in (Course.state c)
                 [new; prepared; lecturerApproved; approved; inEvaluation]).
Proof.
  intros Hc. unfold CourseQueries.can_staff_edit.
  rewrite (is_archived_consistent c Hc). cbn.
  now destruct (Course._participant_count c).
Qed.

Lemma can_staff_delete_consistent (c : Course.t) :
  counts_consistent c ->
  CourseQueries.can_staff_delete c
  = Return (is_None (Course._participant_count c)
            && state_in (Course.state c)
                 [new; prepared; lecturerApproved; approved; inEvaluation]
            && negb (0 <? Course.num_voters c)).
Proof.
  intros Hc. unfold CourseQueries.can_staff_delete.
  rewrite (can_staff_edit_consistent c Hc). cbn.
  now destruct (Course._participant_count c), (Course.state c).
Qed.

Lemma py_all_returns {A : Type} (f : A -> outcome bool) (g : A -> bool)
    (l : list A) :
  Forall (fun x => f x = Return (g x)) l ->
  py_all f l = Return (forallb g l).
Proof.
  induction 1 as [|x l Hx Hl IH]; cbn; [reflexivity |].
  rewrite Hx. cbn. now destruct (g x).
Qed.

End StaffPermissions.

(** X6. An archived course can be neither edited nor deleted by staff,
    and it is not archiveable again, whatever its state and its voters. *)
Theorem archived_course_is_locked (c : Course.t) :
  Course.is_archived c = Return true ->
  CourseQueries.can_staff_edit c = Return false /\
  CourseQueries.can_staff_delete c = Return false /\
  Course.is_archiveable c = Return false.
Proof.
  intros Ha.
  unfold CourseQueries.can_staff_delete, CourseQueries.can_staff_edit,
    Course.is_archiveable.
  rewrite Ha. cbn. auto.
Qed.

Lemma archived_course_is_locked_witness :
  CourseQueries.can_staff_edit archived_course = Return false /\
  CourseQueries.can_staff_delete archived_course = Return false /\
  Course.is_archiveable archived_course = Return false.
Proof. apply (archived_course_is_locked archived_course). reflexivity. Defined.

(** X7. For a semester whose courses have their frozen counts set
    together, [can_staff_delete] returns, and it returns true exactly when
    every course is not archived, is in one of the states new, prepared,
    lecturerApproved, approved, inEvaluation, and has no voter. A semester
    without courses can be deleted. *)
Theorem semester_can_staff_delete_iff (s : Semester.t) :
  Forall counts_consistent (Semester.course_set s) ->
  exists deletable,
    SemesterQueries.can_staff_delete s = Return deletable /\
    (deletable = true
     <-> Forall (fun c =>
                   Course._participant_count c = None /\
                   Course.state c
                     ∈ [new; prepared; lecturerApproved; approved; inEvaluation] /\
                   Course.num_voters c <= 0)
                (Semester.course_set s)).
Proof.
  intros Hall. unfold SemesterQueries.can_staff_delete.
  rewrite (py_all_returns CourseQueries.can_staff_delete
             (fun c => is_None (Course._participant_count c)
                       && state_in (Course.state c)
                            [new; prepared; lecturerApproved; approved;
                             inEvaluation]
                       && negb (0 <? Course.num_voters c))).
  - eexists. split; [reflexivity |].
    rewrite forallb_forall, Forall_forall.
    split; intros H c Hin.
    + apply list_elem_of_In in Hin. specialize (H c Hin).
      apply andb_true_iff in H as [H Hv]. apply andb_true_iff in H as [Hp Hs].
      split; [now destruct (Course._participant_count c) |].
      split; [now apply state_in_elem_of |].
      apply negb_true_iff, Z.ltb_ge in Hv. assumption.
    + apply list_elem_of_In in Hin. destruct (H c Hin) as (Hp & Hs & Hv).
      rewrite Hp. apply state_in_elem_of in Hs. rewrite Hs. cbn.
      apply negb_true_iff, Z.ltb_ge. assumption.
  - eapply Forall_impl; [exact Hall |].
    intros c Hc. now apply can_staff_delete_consistent.
Qed.

Lemma semester_can_staff_delete_iff_witness :
  exists deletable,
    SemesterQueries.can_staff_delete semester_in_evaluation = Return deletable /\
    (deletable = true
     <-> Forall (fun c =>
                   Course._participant_count c = None /\
                   Course.state c
                     ∈ [new; prepared; lecturerApproved; approved; inEvaluation] /\
                   Course.num_voters c <= 0)
                (Semester.course_set semester_in_evaluation)).
Proof.
  apply (semester_can_staff_delete_iff semester_in_evaluation).
  repeat constructor; intros _; reflexivity.
Defined.

(** ** Student-facing state *)

(** X8. [STUDENT_STATES_NAMES] has an entry for each of the eight states,
    so [student_state] never fails with a missing key; it is upcoming up
    to and including approved, inEvaluation in evaluation,
    evaluationFinished for evaluated and reviewed, and published exactly
    for published. *)
Theorem student_state_total (c : Course.t) :
  exists shown,
    student_state c = Some shown /\
    (shown = "upcoming"%string <-> (phase (Course.state c) <= 1)%nat) /\
    (shown = "inEvaluation"%string <-> Course.state c = inEvaluation) /\
    (shown = "evaluationFinished"%string
     <-> Course.state c = evaluated \/ Course.state c = reviewed) /\
    (shown = "published"%string <-> Course.state c = published).
Proof.
  unfold student_state.
  destruct (Course.state c); eexists; (split; [vm_compute; reflexivity |]);
    cbn; repeat split; intros; try discriminate; try lia; try tauto;
    try reflexivity;
    match goal with
    | H : _ \/ _ |- _ => destruct H; discriminate
    end.
Qed.

(** ** Archiving that succeeds *)

Section ArchiveSuccess.

Lemma archive_course_freezes (now : Z) (c : Course.t) :
  Course.is_archiveable c = Return true ->
  length (general_contributions c) = 1%nat ->
  Course._archive now c = (Return tt, archived_at now c).
Proof.
  intros Ha Hg. unfold Course._archive. rewrite Ha.
  now apply (save_idle now (freeze c)).
Qed.

Lemma archive_each_freezes (clock : nat -> Z) (courses : list Course.t) :
  Forall (fun c => Course.is_archiveable c = Return true /\
                   length (general_contributions c) = 1%nat) courses ->
  forall i : nat,
    Semester.archive_each clock i courses
    = (Return tt, imap (fun j c => archived_at (clock (i + j)%nat) c) courses).
Proof.
  induction 1 as [|c courses [Ha Hg] Hall IH]; intros i; cbn; [reflexivity |].
  rewrite (archive_course_freezes (clock i) c Ha Hg), (IH (S i)).
  rewrite Nat.add_0_r. do 2 f_equal.
  apply imap_ext. intros j x _. cbn. now rewrite Nat.add_succ_r.
Qed.

Lemma py_all_true {A : Type} (f : A -> outcome bool) (l : list A) :
  Forall (fun x => f x = Return true) l -> py_all f l = Return true.
Proof.
  induction 1 as [|x l Hx Hl IH]; cbn; [reflexivity |]. now rewrite Hx.
Qed.

Lemma archive_freezes_all (clock : nat -> Z) (s : Semester.t) :
  Forall (fun c => Course.is_archiveable c = Return true /\
                   length (general_contributions c) = 1%nat)
         (Semester.course_set s) ->
  Semester.archive clock s
  = (Return tt,
     {| Semester.course_set :=
          imap (fun i c => archived_at (clock i) c) (Semester.course_set s) |}).
Proof.
  intros Hall. unfold Semester.archive, Semester.is_archiveable.
  rewrite py_all_true by (eapply Forall_impl; [exact Hall | now intros c [H _]]).
  now rewrite (archive_each_freezes clock _ Hall 0).
Qed.

Lemma archived_at_is_archived (now : Z) (c : Course.t) :
  Course.is_archived (archived_at now c) = Return true.
Proof. reflexivity. Qed.

Lemma archive_success_counts (now : Z) (c : Course.t) :
  fst (Course._archive now c) = Return tt ->
  Course._participant_count (snd (Course._archive now c))
  = Some (Course.count (Course.participants c)) /\
  Course._voter_count (snd (Course._archive now c))
  = Some (Course.count (Course.voters c)).
Proof.
  unfold Course._archive.
  destruct (Course.is_archiveable c) as [[]|e]; cbn; try discriminate.
  intros _.
  now destruct (save_keeps_counts now
                  (Course.set_counts (Some (Course.count (Course.participants c)))
                                     (Some (Course.count (Course.voters c))) c))
    as (-> & -> & _).
Qed.

End ArchiveSuccess.

(** X9. When every course of a semester is archiveable and has its
    general contribution, archiving the semester returns, and it leaves
    every course with its participant and voter counts frozen at the
    current numbers of participants and voters and with
    [last_modified_time] set to the time of its save; the state, the
    participants, the voters and the contributions are as they were. *)
Theorem semester_archive_freezes (clock : nat -> Z) (s : Semester.t) :
  Forall (fun c => Course.is_archiveable c = Return true /\
                   length (general_contributions c) = 1%nat)
         (Semester.course_set s) ->
  Semester.archive clock s
  = (Return tt,
     {| Semester.course_set :=
          imap (fun i c =>
                  Course.set_last_modified_time (clock i)
                    (Course.set_counts
                       (Some (Course.count (Course.participants c)))
                       (Some (Course.count (Course.voters c))) c))
               (Semester.course_set s) |}).
Proof. intros Hall. now apply archive_freezes_all. Qed.

Lemma semester_archive_freezes_witness :
  Semester.archive clock_from_100 semester_published
  = (Return tt,
     {| Semester.course_set :=
          imap (fun i c =>
                  Course.set_last_modified_time (clock_from_100 i)
                    (Course.set_counts
                       (Some (Course.count (Course.participants c)))
                       (Some (Course.count (Course.voters c))) c))
               (Semester.course_set semester_published) |}).
Proof.
  apply (semester_archive_freezes clock_from_100 semester_published).
  repeat constructor.
Defined.

(** The same on the two published courses: counts 2 and 1, stamps 100
    and 101. *)
Example semester_archive_stamps :
  map (fun c => (Course._participant_count c, Course._voter_count c,
                 Course.last_modified_time c))
      (Semester.course_set
         (snd (Semester.archive clock_from_100 semester_published)))
  = [(Some 2, Some 1, 100); (Some 2, Some 1, 101)].
Proof. reflexivity. Qed.

(** X10. A semester with at least one course that has been archived with
    success reports itself as archived, and archiving it a second time
    raises [NotArchiveable] and changes nothing. *)
Theorem semester_archive_once (clock clock' : nat -> Z) (s : Semester.t) :
  Semester.course_set s <> [] ->
  Forall (fun c => Course.is_archiveable c = Return true /\
                   length (general_contributions c) = 1%nat)
         (Semester.course_set s) ->
  Semester.is_archived (snd (Semester.archive clock s)) = Return true /\
  Semester.archive clock' (snd (Semester.archive clock s))
  = (Raise NotArchiveable, snd (Semester.archive clock s)).
Proof.
  intros Hne Hall. rewrite (archive_freezes_all clock s Hall). cbn [snd].
  destruct s as [[|first rest]]; [now destruct Hne |].
  cbn [Semester.course_set]. rewrite imap_cons.
  split.
  - apply semester_is_archived_cons.
    constructor; [reflexivity |].
    apply Forall_forall. intros c Hin.
    apply elem_of_lookup_imap in Hin as (i & c0 & -> & _). reflexivity.
  - reflexivity.
Qed.

Lemma semester_archive_once_witness :
  Semester.is_archived (snd (Semester.archive clock_from_100 semester_published))
  = Return true /\
  Semester.archive clock_from_100
    (snd (Semester.archive clock_from_100 semester_published))
  = (Raise NotArchiveable,
     snd (Semester.archive clock_from_100 semester_published)).
Proof.
  apply (semester_archive_once clock_from_100 clock_from_100 semester_published).
  - discriminate.
  - repeat constructor.
Defined.

(** X11. After a course has been archived with success, its numbers of
    participants and voters, and with them the publication quorum, are the
    ones at the time of archiving: they do not follow later changes of the
    participants and voters. *)
Theorem archived_counts_are_decoupled (now : Z) (c : Course.t) :
  fst (Course._archive now c) = Return tt ->
  forall (ps vs : list user),
    Course.num_participants (set_people ps vs (snd (Course._archive now c)))
    = Course.count (Course.participants c) /\
    Course.num_voters (set_people ps vs (snd (Course._archive now c)))
    = Course.count (Course.voters c) /\
    forall cfg : Settings,
      Course.can_publish_grades cfg
        (set_people ps vs (snd (Course._archive now c)))
      = Course.can_publish_grades cfg (snd (Course._archive now c)).
Proof.
  intros Hok ps vs.
  destruct (archive_success_counts now c Hok) as [Hp Hv].
  unfold Course.can_publish_grades, Course.num_participants, Course.num_voters.
  cbn. rewrite Hp, Hv. auto.
Qed.

Lemma archived_counts_are_decoupled_witness :
  Course.num_participants
    (set_people [] [] (snd (Course._archive 100 course_half_voted)))
  = Course.count (Course.participants course_half_voted) /\
  Course.num_voters
    (set_people [] [] (snd (Course._archive 100 course_half_voted)))
  = Course.count (Course.voters course_half_voted) /\
  forall cfg : Settings,
    Course.can_publish_grades cfg
      (set_people [] [] (snd (Course._archive 100 course_half_voted)))
    = Course.can_publish_grades cfg (snd (Course._archive 100 course_half_voted)).
Proof.
  apply (archived_counts_are_decoupled 100 course_half_voted). reflexivity.
Defined.

(** ** Where the quorum test raises *)

(** X12. [can_publish_grades] raises exactly when the course has no
    participants and at least MIN_ANSWER_COUNT voters, and the exception is
    then [ZeroDivisionError]; in every other case it returns. *)
Theorem can_publish_grades_raises_iff (cfg : Settings) (c : Course.t) :
  (Course.can_publish_grades cfg c = Raise ZeroDivisionError
   <-> Course.num_participants c = 0 /\
       MIN_ANSWER_COUNT cfg <= Course.num_voters c) /\
  (~ (Course.num_participants c = 0 /\
      MIN_ANSWER_COUNT cfg <= Course.num_voters c)
   -> exists quorum, Course.can_publish_grades cfg c = Return quorum).
Proof.
  split.
  - split.
    + intros H. apply can_publish_grades_raises in H as (_ & Hp & Hv). auto.
    + intros [Hp Hv]. rewrite can_publish_grades_no_participants by assumption.
      apply Z.leb_le in Hv. now rewrite Hv.
  - intros Hn. destruct (Z.eq_dec (Course.num_participants c) 0) as [Hp | Hp].
    + rewrite can_publish_grades_no_participants by assumption.
      destruct (Z.leb_spec (MIN_ANSWER_COUNT cfg) (Course.num_voters c));
        [exfalso; apply Hn; now split | eauto].
    + rewrite can_publish_grades_defined by assumption. eauto.
Qed.

(** X13. [can_user_see_results] raises only for a user who is not staff
    on a published course without participants and with at least
    MIN_ANSWER_COUNT voters; staff, and everyone on a course that is not
    published, get an answer whatever the counts are. *)
Theorem can_user_see_results_raises_iff (cfg : Settings) (db : Database)
    (c : Course.t) (u : user) :
  (exists e, Course.can_user_see_results cfg db c u = Raise e)
  <-> UserProfile.is_staff db u = false /\
      Course.state c = published /\
      Course.num_participants c = 0 /\
      MIN_ANSWER_COUNT cfg <= Course.num_voters c.
Proof.
  unfold Course.can_user_see_results.
  destruct (UserProfile.is_staff db u).
  - split; [intros [e He]; discriminate He | intros [H _]; discriminate H].
  - destruct (Course.state c) eqn:Hs; cbn;
      try (split; [intros [e He]; discriminate He
                  | intros (_ & H & _); discriminate H]).
    destruct (Course.can_publish_grades cfg c) as [q | e] eqn:Hq; cbn.
    + split.
      * intros [e He]. destruct q; discriminate He.
      * intros (_ & _ & Hp & Hv).
        rewrite (can_publish_grades_no_participants cfg c Hp) in Hq.
        apply Z.leb_le in Hv. rewrite Hv in Hq. discriminate Hq.
    + apply can_publish_grades_raises in Hq as (_ & Hp & Hv).
      split; [intros _; auto | intros _; now exists e].
Qed.

(** ** Editors, responsibles and their delegates *)

Section Delegates.

Variable db : Database.

(** The shape shared by [is_user_editor_or_delegate] and
    [is_user_responsible_or_delegate]: a direct match first, then a match
    through the represented users. *)
Lemma kept_or_delegate_iff (keep : Contribution.t -> bool)
    (rows : list Contribution.t) (u : user) :
  (if exists_ (List.filter
                 (fun ct => keep ct &&
                            match Contribution.contributor ct with
                            | Some v => v =? u
                            | None => false
                            end) rows)
   then true
   else if exists_ (List.filter
                      (fun ct => keep ct &&
                                 match Contribution.contributor ct with
                                 | Some v =>
                                     user_in v (UserProfile.represented_users db u)
                                 | None => false
                                 end) rows)
        then true else false) = true
  <-> exists ct, ct ∈ rows /\ keep ct = true /\
        (Contribution.contributor ct = Some u \/
         exists v, Contribution.contributor ct = Some v /\
                   (v, u) ∈ delegates_table db).
Proof.
  remember (exists_ (List.filter
                       (fun ct => keep ct &&
                                  match Contribution.contributor ct with
                                  | Some v => v =? u
                                  | None => false
                                  end) rows)) as direct eqn:Hdirect.
  symmetry in Hdirect. destruct direct.
  - apply exists_filter in Hdirect as (ct & Hin & Hct).
    apply andb_true_iff in Hct as [Hk Hct].
    split; [intros _ | reflexivity]. exists ct. repeat split; try assumption.
    left. destruct (Contribution.contributor ct) as [v|]; [| discriminate].
    apply Z.eqb_eq in Hct. now subst v.
  - remember (exists_ (List.filter
                         (fun ct => keep ct &&
                                    match Contribution.contributor ct with
                                    | Some v =>
                                        user_in v (UserProfile.represented_users db u)
                                    | None => false
                                    end) rows)) as via eqn:Hvia.
    symmetry in Hvia. destruct via.
    + apply exists_filter in Hvia as (ct & Hin & Hct).
      apply andb_true_iff in Hct as [Hk Hct].
      split; [intros _ | reflexivity]. exists ct. repeat split; try assumption.
      right. destruct (Contribution.contributor ct) as [v|]; [| discriminate].
      exists v. split; [reflexivity |].
      now apply represented_users_elem_of, user_in_elem_of.
    + split; [discriminate |]. intros (ct & Hin & Hk & Hct). exfalso.
      destruct Hct as [Hct | (v & Hct & Hrow)].
      * apply not_true_iff_false in Hdirect. apply Hdirect, exists_filter.
        exists ct. split; [assumption |]. rewrite Hk, Hct. apply Z.eqb_refl.
      * apply not_true_iff_false in Hvia. apply Hvia, exists_filter.
        exists ct. split; [assumption |]. rewrite Hk, Hct. cbn.
        now apply user_in_elem_of, represented_users_elem_of.
Qed.

Lemma is_user_editor_or_delegate_iff (c : Course.t) (u : user) :
  CourseQueries.is_user_editor_or_delegate db c u = true
  <-> exists ct, ct ∈ Course.contributions c /\
        Contribution.can_edit ct = true /\
        (Contribution.contributor ct = Some u \/
         exists v, Contribution.contributor ct = Some v /\
                   (v, u) ∈ delegates_table db).
Proof. apply (kept_or_delegate_iff Contribution.can_edit). Qed.

Lemma is_user_responsible_or_delegate_iff (c : Course.t) (u : user) :
  CourseQueries.is_user_responsible_or_delegate db c u = true
  <-> exists ct, ct ∈ Course.contributions c /\
        Contribution.responsible ct = true /\
        (Contribution.contributor ct = Some u \/
         exists v, Contribution.contributor ct = Some v /\
                   (v, u) ∈ delegates_table db).
Proof. apply (kept_or_delegate_iff Contribution.responsible). Qed.

Lemma is_user_editor_iff (c : Course.t) (u : user) :
  CourseQueries.is_user_editor c u = true
  <-> exists ct, ct ∈ Course.contributions c /\
        Contribution.contributor ct = Some u /\
        Contribution.can_edit ct = true.
Proof.
  unfold CourseQueries.is_user_editor. rewrite exists_filter.
  split; intros (ct & Hin & Hct); exists ct; split; try assumption.
  - apply andb_true_iff in Hct as [Hu He]. split; [| assumption].
    destruct (Contribution.contributor ct) as [v|]; [| discriminate].
    apply Z.eqb_eq in Hu. now subst v.
  - destruct Hct as [-> ->]. now rewrite Z.eqb_refl.
Qed.

End Delegates.

(** X14. The permission tests are nested: an editor of a course is one of
    its contributors and passes the editor-or-delegate test, and whoever
    passes the editor-or-delegate test or the responsible-or-delegate test
    passes the contributor-or-delegate test. *)
Theorem permission_tests_nested (db : Database) (c : Course.t) (u : user) :
  (CourseQueries.is_user_editor c u = true ->
   Course.is_user_contributor c u = true /\
   CourseQueries.is_user_editor_or_delegate db c u = true) /\
  (CourseQueries.is_user_editor_or_delegate db c u = true ->
   Course.is_user_contributor_or_delegate db c u = true) /\
  (CourseQueries.is_user_responsible_or_delegate db c u = true ->
   Course.is_user_contributor_or_delegate db c u = true).
Proof.
  rewrite is_user_editor_iff, is_user_contributor_iff,
    is_user_editor_or_delegate_iff, is_user_responsible_or_delegate_iff,
    is_user_contributor_or_delegate_iff.
  unfold contributor_or_delegate. repeat split.
  - destruct H as (ct & Hin & Hu & _). now exists ct.
  - destruct H as (ct & Hin & Hu & He). exists ct. auto.
  - intros (ct & Hin & _ & H). now exists ct.
  - intros (ct & Hin & _ & H). now exists ct.
Qed.

(** X15. On a course whose contributions have all passed
    [Contribution.clean], whoever passes the responsible-or-delegate test
    passes the editor-or-delegate test. *)
Theorem cleaned_responsible_is_editor (db : Database) (c : Course.t) (u : user) :
  Forall (fun ct => ContributionClean.clean ct = ct) (Course.contributions c) ->
  CourseQueries.is_user_responsible_or_delegate db c u = true ->
  CourseQueries.is_user_editor_or_delegate db c u = true.
Proof.
  intros Hclean.
  rewrite is_user_editor_or_delegate_iff, is_user_responsible_or_delegate_iff.
  intros (ct & Hin & Hr & H). exists ct. repeat split; try assumption.
  rewrite Forall_forall in Hclean. specialize (Hclean ct Hin).
  unfold ContributionClean.clean in Hclean. rewrite Hr in Hclean.
  rewrite <- Hclean. reflexivity.
Qed.

Lemma cleaned_responsible_is_editor_witness :
  CourseQueries.is_user_editor_or_delegate db_plain course_A 7 = true.
Proof.
  apply (cleaned_responsible_is_editor db_plain course_A 7).
  - repeat constructor.
  - reflexivity.
Defined.

(** X16. [Contribution.clean] makes a responsible contribution editable,
    changes no other field, and cleaning a second time changes nothing. *)
Theorem clean_makes_responsible_editable (ct : Contribution.t) :
  (Contribution.responsible (ContributionClean.clean ct) = true ->
   Contribution.can_edit (ContributionClean.clean ct) = true) /\
  (Contribution.responsible ct = false -> ContributionClean.clean ct = ct) /\
  Contribution.contributor (ContributionClean.clean ct)
  = Contribution.contributor ct /\
  Contribution.responsible (ContributionClean.clean ct)
  = Contribution.responsible ct /\
  Contribution.textanswer_set (ContributionClean.clean ct)
  = Contribution.textanswer_set ct /\
  ContributionClean.clean (ContributionClean.clean ct)
  = ContributionClean.clean ct.
Proof.
  unfold ContributionClean.clean.
  destruct (Contribution.responsible ct) eqn:Hr; cbn; rewrite ?Hr;
    repeat split; auto; try congruence; discriminate.
Qed.

(** ** Text answers *)

(** X17. Assigning to the [answer] property and reading it back gives the
    assigned value, the empty string included; the assignment drops an
    earlier reviewed value and leaves the checked and hidden flags as they
    were. *)
Theorem answer_setter_getter (value : string) (a : TextAnswer.t) :
  TextAnswer.answer (TextAnswerSetter.set_answer value a) = value /\
  TextAnswer.reviewed_answer (TextAnswerSetter.set_answer value a) = None /\
  TextAnswer.checked (TextAnswerSetter.set_answer value a) = TextAnswer.checked a /\
  TextAnswer.hidden (TextAnswerSetter.set_answer value a) = TextAnswer.hidden a.
Proof. repeat split. Qed.

Lemma filter_split_length {A : Type} (f : A -> bool) (l : list A) :
  (length (List.filter (fun x => negb (f x)) l) + length (List.filter f l)
   = length l)%nat.
Proof.
  induction l as [|x l IH]; cbn; [reflexivity |].
  destruct (f x); cbn; lia.
Qed.

Lemma filter_all {A : Type} (f : A -> bool) (l : list A) :
  List.filter f l = l <-> List.filter (fun x => negb (f x)) l = [].
Proof.
  induction l as [|x l IH]; cbn; [tauto |].
  destruct (f x) eqn:Hx; cbn.
  - rewrite <- IH. split; [now intros [= ->] | now intros ->].
  - split; [| discriminate]. intros H. exfalso.
    assert (length (List.filter f l) <= length l)%nat as Hle
      by (pose proof (filter_split_length f l); lia).
    rewrite H in Hle. cbn in Hle. lia.
Qed.

(** X18. The open and the checked text answers of a course split its
    text answers, and the course is fully checked exactly when the checked
    ones are all of them. *)
Theorem text_answers_split (c : Course.t) :
  (length (Course.open_textanswer_set c)
   + length (CourseQueries.checked_textanswer_set c)
   = length (Course.textanswer_set c))%nat /\
  (Course.is_fully_checked c = true
   <-> CourseQueries.checked_textanswer_set c = Course.textanswer_set c).
Proof.
  unfold Course.is_fully_checked, Course.open_textanswer_set,
    CourseQueries.checked_textanswer_set.
  split; [apply filter_split_length |].
  rewrite filter_all, negb_true_iff.
  destruct (List.filter _ _); cbn; split; congruence.
Qed.

(** ** EmailNullField *)

(** X19. [EmailNullField] never hands None to Python and never writes
    the empty string to the database: a missing address is '' on the way
    out and NULL on the way in, every other address is passed through, and
    converting back and forth is stable. *)
Theorem email_null_field_round_trip (value : option string) :
  EmailNullField.to_python value <> None /\
  EmailNullField.get_prep_value value <> Some ""%string /\
  (EmailNullField.truthy value = true ->
   EmailNullField.to_python value = value /\
   EmailNullField.get_prep_value value = value) /\
  EmailNullField.get_prep_value (EmailNullField.to_python value)
  = EmailNullField.get_prep_value value /\
  EmailNullField.to_python (EmailNullField.get_prep_value value)
  = EmailNullField.to_python value.
Proof.
  unfold EmailNullField.to_python, EmailNullField.get_prep_value,
    EmailNullField.truthy, str_truthy.
  destruct value as [s|]; [| repeat split; discriminate].
  destruct (String.eqb s "") eqn:Hs; cbn; rewrite ?Hs; cbn.
  - repeat split; discriminate.
  - repeat split; try discriminate.
    intros [= ->]. discriminate Hs.
Qed.

(** ** Names of a user *)

Section Names.

Lemma str_truthy_nonempty (s : string) : str_truthy s = true -> s <> ""%string.
Proof. unfold str_truthy. intros H ->. discriminate H. Qed.

Lemma append_nonempty (a b : string) : a <> ""%string -> (a ++ b)%string <> ""%string.
Proof. destruct a; [congruence | discriminate]. Qed.

End Names.

(** X20. A user with a non-empty username has a non-empty full name and
    a non-empty short name, whichever of title, first name and last name
    are missing or empty. *)
Theorem display_names_nonempty (u : UserNames.t) :
  UserNames.username u <> ""%string ->
  UserNames.full_name u <> ""%string /\
  UserNames.get_short_name u <> ""%string.
Proof.
  intros Hu. unfold UserNames.full_name, UserNames.get_short_name. split.
  - destruct (UserNames.last_name u) as [l|]; [| assumption].
    destruct (str_truthy l) eqn:Hl; [| assumption].
    apply str_truthy_nonempty in Hl.
    destruct (UserNames.first_name u) as [f|], (UserNames.title u) as [t|];
      repeat match goal with
             | |- context [str_truthy ?x] =>
                 let H := fresh "H" in
                 destruct (str_truthy x) eqn:H;
                 [apply str_truthy_nonempty in H |]
             end;
      try assumption; now apply append_nonempty.
  - destruct (UserNames.first_name u) as [f|]; [| assumption].
    destruct (str_truthy f) eqn:Hf; [| assumption].
    now apply str_truthy_nonempty.
Qed.

Lemma display_names_nonempty_witness :
  UserNames.full_name names_full <> ""%string /\
  UserNames.get_short_name names_full <> ""%string.
Proof. apply (display_names_nonempty names_full). discriminate. Defined.

(** ** Messages *)

Section Messages.

Variable render_string : string -> Mail.context -> string.
Variable settings : Mail.MailSettings.
Variable db : Database.

Lemma cc_user_set_elem_of (u p : user) :
  p ∈ Mail.cc_user_set db u
  <-> (u, p) ∈ delegates_table db \/ (u, p) ∈ cc_users_table db.
Proof.
  unfold Mail.cc_user_set.
  rewrite elem_of_elements, elem_of_list_to_set, elem_of_app.
  now rewrite delegates_elem_of, cc_users_elem_of.
Qed.

Lemma cc_addresses_elem_of (u : user) (a : string) :
  a ∈ Mail.cc_addresses_of db u
  <-> a <> ""%string /\
      exists p, ((u, p) ∈ delegates_table db \/ (u, p) ∈ cc_users_table db) /\
                UserProfile.email db p = a.
Proof.
  unfold Mail.cc_addresses_of. rewrite list_elem_of_In, in_map_iff. split.
  - intros (p & <- & Hin). apply filter_In in Hin as [Hin Hmail].
    split; [now apply str_truthy_nonempty |].
    exists p. split; [| reflexivity].
    now apply cc_user_set_elem_of, list_elem_of_In.
  - intros (Ha & p & Hp & <-). exists p. split; [reflexivity |].
    apply filter_In. split.
    + now apply list_elem_of_In, cc_user_set_elem_of.
    + unfold str_truthy. apply negb_true_iff. now apply String.eqb_neq.
Qed.

Lemma send_to_user_one (template : Mail.Template) (u : user)
    (courses : option (list Course.t)) (cc : bool) :
  UserProfile.email db u <> ""%string ->
  exists mail,
    Mail.send_to_user render_string settings db template u courses cc = [mail] /\
    Mail.msg_to mail = [UserProfile.email db u] /\
    Mail.msg_cc mail = (if cc then Mail.cc_addresses_of db u else []) /\
    Mail.msg_bcc mail = map snd (Mail.MANAGERS settings).
Proof.
  intros Hmail. unfold Mail.send_to_user, str_truthy.
  apply String.eqb_neq in Hmail. rewrite Hmail. cbn.
  eexists. split; [reflexivity |]. cbn. auto.
Qed.

End Messages.

(** X21. [send_to_user] sends nothing to a user without an email
    address. To a user with one it sends exactly one message, addressed to
    that user alone, with the manager addresses in bcc; its cc holds, when
    cc is requested, exactly the non-empty addresses of the delegates and
    cc users of the user, and nothing otherwise. *)
Theorem send_to_user_sound (render_string : string -> Mail.context -> string)
    (settings : Mail.MailSettings) (db : Database) (template : Mail.Template)
    (u : user) (courses : option (list Course.t)) (cc : bool) :
  (UserProfile.email db u = ""%string ->
   Mail.send_to_user render_string settings db template u courses cc = []) /\
  (UserProfile.email db u <> ""%string ->
   exists mail,
     Mail.send_to_user render_string settings db template u courses cc = [mail] /\
     Mail.msg_to mail = [UserProfile.email db u] /\
     Mail.msg_bcc mail = map snd (Mail.MANAGERS settings) /\
     forall a,
       a ∈ Mail.msg_cc mail
       <-> cc = true /\ a <> ""%string /\
           exists p, ((u, p) ∈ delegates_table db \/ (u, p) ∈ cc_users_table db) /\
                     UserProfile.email db p = a).
Proof.
  split.
  - intros Hmail. unfold Mail.send_to_user, str_truthy. now rewrite Hmail.
  - intros Hmail.
    destruct (send_to_user_one render_string settings db template u courses cc
                Hmail) as (mail & Hsend & Hto & Hcc & Hbcc).
    exists mail. repeat split; try assumption.
    + rewrite Hcc in H. destruct cc; [reflexivity |].
      now apply elem_of_nil in H.
    + rewrite Hcc in H. destruct cc; [| now apply elem_of_nil in H].
      now apply cc_addresses_elem_of in H.
    + rewrite Hcc in H. destruct cc; [| now apply elem_of_nil in H].
      now apply cc_addresses_elem_of in H.
    + intros (-> & Ha & Hp). rewrite Hcc. now apply cc_addresses_elem_of.
Qed.

(** X22. [send_reminder_to_user] returns without a message, and without
    looking for the template, when the user has no email address. For a
    user with an address it raises [DoesNotExist] when no template is named
    Student Reminder, and with exactly one such template it sends one
    message to that user alone, without cc and with the manager addresses
    in bcc. *)
Theorem send_reminder_to_user_sound
    (render_string : string -> Mail.context -> string)
    (settings : Mail.MailSettings) (db : Database)
    (templates : list Mail.Template) (u : user) (days : Z)
    (due_courses : list Course.t) :
  let named :=
    List.filter (fun t => String.eqb (Mail.name t) "Student Reminder") templates in
  (UserProfile.email db u = ""%string ->
   Mail.send_reminder_to_user render_string settings db templates u days
     due_courses = Return []) /\
  (UserProfile.email db u <> ""%string -> named = [] ->
   Mail.send_reminder_to_user render_string settings db templates u days
     due_courses = Raise DoesNotExist) /\
  (UserProfile.email db u <> ""%string ->
   forall template, named = [template] ->
   exists mail,
     Mail.send_reminder_to_user render_string settings db templates u days
       due_courses = Return [mail] /\
     Mail.msg_to mail = [UserProfile.email db u] /\
     Mail.msg_cc mail = [] /\
     Mail.msg_bcc mail = map snd (Mail.MANAGERS settings)).
Proof.
  intros named. subst named.
  unfold Mail.send_reminder_to_user, Mail.get_reminder_template, str_truthy.
  split; [| split].
  - intros ->. reflexivity.
  - intros Hmail ->. apply String.eqb_neq in Hmail. now rewrite Hmail.
  - intros Hmail template ->. apply String.eqb_neq in Hmail. rewrite Hmail. cbn.
    eexists. split; [reflexivity |]. cbn. auto.
Qed.

(** X23. For courses that each have a responsible contributor,
    [send_to_users_in_courses] as a whole sends exactly one message for
    every user of the aggregated mapping, addressed to that user: no user
    of the mapping is skipped by the address test of [send_to_user], and
    nobody gets a message per course. *)
Theorem one_message_per_recipient
    (render_string : string -> Mail.context -> string)
    (settings : Mail.MailSettings) (db : Database) (template : Mail.Template)
    (courses : list Course.t) (recipient_groups : list string) :
  Forall (fun c => exists r, Course.responsible_contributor c = Return (Some r))
         courses ->
  exists user_course_map mails,
    EmailTemplate.send_to_users_in_courses db courses recipient_groups
    = Return user_course_map /\
    Mail.send_to_users_in_courses render_string settings db template courses
      recipient_groups = Return mails /\
    length mails = size user_course_map /\
    Forall2 (fun (item : user * list Course.t) mail =>
               Mail.send_to_user render_string settings db template
                 (fst item) (Some (snd item)) true = [mail] /\
               Mail.msg_to mail = [UserProfile.email db (fst item)])
            (map_to_list user_course_map) mails.
Proof.
  intros Hall. unfold Mail.send_to_users_in_courses,
    EmailTemplate.send_to_users_in_courses.
  destruct (add_courses_sound db recipient_groups courses Hall ∅)
    as (m & -> & Hlisted & Hnonempty).
  exists m. cbn [bind].
  assert (Forall (fun item : user * list Course.t =>
                    UserProfile.email db (fst item) <> ""%string)
                 (map_to_list m)) as Hmail.
  { apply Forall_forall. intros [u cs] Hin. cbn.
    apply elem_of_map_to_list in Hin.
    assert (cs <> []) as Hcs.
    { apply (Hnonempty (fun v cs Hv => ltac:(now rewrite lookup_empty in Hv)) u).
      assumption. }
    destruct cs as [|c cs]; [congruence |].
    assert (listed m u c) as Hl
      by (exists (c :: cs); split; [assumption | apply list_elem_of_here]).
    apply Hlisted in Hl as [(cs0 & Hcs0 & _) | (_ & _ & Hm & _)];
      [rewrite lookup_empty in Hcs0; discriminate | assumption]. }
  rewrite <- (length_map_to_list m).
  induction (map_to_list m) as [|item items IH]; cbn.
  - exists []. repeat split. constructor.
  - apply Forall_cons in Hmail as [Hitem Hitems].
    destruct (IH Hitems) as (mails & _ & Heq & Hlen & Hall2).
    destruct (send_to_user_one render_string settings db template (fst item)
                (Some (snd item)) true Hitem) as (mail & Hsend & Hto & _).
    exists (mail :: mails). injection Heq as Heq.
    rewrite Hsend, Heq. cbn. repeat split.
    + now rewrite Hlen.
    + constructor; [now split | assumption].
Qed.

Lemma one_message_per_recipient_witness :
  exists user_course_map mails,
    EmailTemplate.send_to_users_in_courses db_cc [course_A; course_B]
      ["due_participants"%string]
    = Return user_course_map /\
    Mail.send_to_users_in_courses render_plain mail_settings db_cc notice
      [course_A; course_B] ["due_participants"%string] = Return mails /\
    length mails = size user_course_map /\
    Forall2 (fun (item : user * list Course.t) mail =>
               Mail.send_to_user render_plain mail_settings db_cc notice
                 (fst item) (Some (snd item)) true = [mail] /\
               Mail.msg_to mail = [UserProfile.email db_cc (fst item)])
            (map_to_list user_course_map) mails.
Proof.
  apply (one_message_per_recipient render_plain mail_settings db_cc notice
           [course_A; course_B] ["due_participants"%string]).
  constructor; [exists 7; reflexivity |].
  constructor; [exists 8; reflexivity |].
  constructor.
Defined.

(** ** Recipients: where the aggregation raises *)

Section RecipientErrors.

Variable db : Database.

Lemma add_recipients_nil (course : Course.t) (responsible : option user)
    (m : gmap user (list Course.t)) :
  EmailTemplate.add_recipients db course responsible [] m = Return m.
Proof. reflexivity. Qed.

Lemma recipient_list_unknown_groups (c : Course.t) (recipient_groups : list string) :
  (forall g, g ∈ known_groups -> g ∉ recipient_groups) ->
  EmailTemplate.recipient_list_for_course c recipient_groups = Return [].
Proof.
  intros Hnone. unfold EmailTemplate.recipient_list_for_course.
  assert (forall g, g ∈ known_groups ->
                    EmailTemplate.group_in g recipient_groups = false) as Hg
    by (intros g Hin; now apply group_in_not_elem_of, Hnone).
  rewrite !Hg; [reflexivity | | | | |]; unfold known_groups;
    rewrite !elem_of_cons; tauto.
Qed.

Lemma add_courses_raises (recipient_groups : list string)
    (courses : list Course.t) :
  (exists c e, c ∈ courses /\ Course.responsible_contributor c = Raise e) ->
  forall m : gmap user (list Course.t),
  exists e', EmailTemplate.add_courses db courses recipient_groups m = Raise e'.
Proof.
  induction courses as [|course rest IH]; intros (c & e & Hin & Hc) m.
  - now apply elem_of_nil in Hin.
  - cbn [EmailTemplate.add_courses].
    destruct (Course.responsible_contributor course) as [r | e0] eqn:Hr;
      [| now exists e0].
    cbn [bind].
    destruct (EmailTemplate.recipient_list_for_course course recipient_groups)
      as [recipients | e1]; [| now exists e1].
    cbn [bind].
    destruct (EmailTemplate.add_recipients db course r recipients m)
      as [m1 | e2]; [| now exists e2].
    cbn [bind]. apply IH. exists c, e. split; [| assumption].
    apply elem_of_cons in Hin as [-> | Hin]; [congruence | assumption].
Qed.

End RecipientErrors.

(** X24. [recipient_list_for_course] raises exactly when the group
    responsible is requested and looking up the responsible contributor of
    the course raises, and then with that exception; for every other
    selection of groups it returns a list. *)
Theorem recipient_list_raises_iff (c : Course.t) (recipient_groups : list string)
    (e : exn) :
  EmailTemplate.recipient_list_for_course c recipient_groups = Raise e
  <-> "responsible"%string ∈ recipient_groups /\
      Course.responsible_contributor c = Raise e.
Proof.
  unfold EmailTemplate.recipient_list_for_course.
  rewrite <- group_in_elem_of.
  destruct (EmailTemplate.group_in "responsible" recipient_groups); cbn.
  - destruct (Course.responsible_contributor c) as [r | e0]; cbn.
    + split; [discriminate | intros [_ H]; discriminate H].
    + split; [intros [= ->]; auto | intros [_ [= ->]]; reflexivity].
  - split; [discriminate | intros [H _]; discriminate H].
Qed.

(** X25. When the responsible contributor of one of the courses cannot be
    looked up (no contribution of it, or several, are marked responsible),
    [send_to_users_in_courses] raises and builds no mapping, whichever
    groups are requested. *)
Theorem send_to_users_in_courses_needs_responsible (db : Database)
    (courses : list Course.t) (recipient_groups : list string) :
  (exists c e, c ∈ courses /\ Course.responsible_contributor c = Raise e) ->
  exists e',
    EmailTemplate.send_to_users_in_courses db courses recipient_groups = Raise e'.
Proof.
  intros Hbad. now apply add_courses_raises.
Qed.

Lemma send_to_users_in_courses_needs_responsible_witness :
  exists e',
    EmailTemplate.send_to_users_in_courses db_plain [course_A; unsaved_course] []
    = Raise e'.
Proof.
  apply (send_to_users_in_courses_needs_responsible db_plain
           [course_A; unsaved_course] []).
  exists unsaved_course, DoesNotExist. split; [| reflexivity].
  apply list_elem_of_further, list_elem_of_here.
Defined.

(** X26. Group names other than the five known ones are ignored without
    an error: when none of responsible, contributors, editors,
    all_participants and due_participants is requested, the mapping is
    empty for all courses whose responsible contribution can be looked up,
    also when that contribution has no contributor. *)
Theorem unknown_groups_select_nobody (db : Database) (courses : list Course.t)
    (recipient_groups : list string) :
  (forall g, g ∈ known_groups -> g ∉ recipient_groups) ->
  Forall (fun c => exists r, Course.responsible_contributor c = Return r) courses ->
  EmailTemplate.send_to_users_in_courses db courses recipient_groups = Return ∅.
Proof.
  intros Hnone Hall. unfold EmailTemplate.send_to_users_in_courses.
  induction Hall as [|c rest [r Hr] Hrest IH]; cbn; [reflexivity |].
  rewrite Hr. cbn [bind].
  rewrite (recipient_list_unknown_groups c recipient_groups Hnone). cbn [bind].
  rewrite add_recipients_nil. cbn [bind]. exact IH.
Qed.

Lemma unknown_groups_select_nobody_witness :
  EmailTemplate.send_to_users_in_courses db_cc [course_A; course_B]
    ["students"%string] = Return ∅.
Proof.
  apply (unknown_groups_select_nobody db_cc [course_A; course_B]
           ["students"%string]).
  - intros g Hg Hin. apply list_elem_of_singleton in Hin. subst g.
    unfold known_groups in Hg. rewrite !elem_of_cons, elem_of_nil in Hg.
    destruct Hg as [H | [H | [H | [H | [H | []]]]]]; discriminate H.
  - constructor; [exists (Some 7); reflexivity |].
    constructor; [exists (Some 8); reflexivity |].
    constructor.
Defined.

(** ** Saving twice *)


(** A course saved at 100 and again at 101 carries the second stamp. *)
Example save_twice_stamp :
  Course.last_modified_time
    (snd (Course.save 101 (snd (Course.save 100 unsaved_course)))) = 101.
Proof. reflexivity. Qed.
